(** * Gear: the request-dispatch engine of [app.go]

    A shallow embedding of [app.go] (package [gear], v0.6.0) and the
    properties of its dispatch engine [serveHandler.ServeHTTP], of the
    error sink [Gear.Error], of the server front end ([Listen],
    [ListenTLS], [Start]) and of the adapters [WrapHandler] and
    [WrapHandlerFunc].

    Go pointers to the per-request [Context] are rendered by explicit
    state passing: a middleware unit takes the context and returns the
    mutated context together with its [error] result.  What is shared
    between requests (the [sync.Pool], the logging sinks) lives in a
    [World] that a small state monad threads through the engine, next to
    a trace of the calls the engine makes.  Units, hooks and handlers are
    taken to return; a panic that unwinds through [ServeHTTP] is outside
    this model. *)

From Stdlib Require Import ZArith List String Ascii Bool Lia DecimalString.
Import ListNotations.
Local Open Scope string_scope.
Local Open Scope Z_scope.

Set Implicit Arguments.

(** ** Errors *)

(** A Go [error] value is observed through its [Error()] text only; the
    nil interface value is [None] of [option error]. *)
Definition error := string.

(** [errors.New]. *)
Definition errors_New (text : string) : error := text.

(** [err.Error()]. *)
Definition error_Error (e : error) : string := e.

(** [fmt.Sprintf("%v", nil)], what [Println] prints for a nil error. *)
Definition fmt_nil : string := "<nil>".

(** [textproto.Error] of Go's [net/textproto]: a numeric code and a text. *)
Record textproto_Error := { Code : Z; Msg : string }.

(** Decimal digits of a natural number, as [fmt] prints them. *)
Definition digits (n : N) : string :=
  NilEmpty.string_of_uint (N.to_uint n).

(** Left padding with the character zero up to [width] characters. *)
Fixpoint zeros (k : nat) : string :=
  match k with
  | O => ""
  | S k' => String "0" (zeros k')
  end.

Definition pad0 (width : nat) (s : string) : string :=
  zeros (width - String.length s) ++ s.

(** [fmt.Sprintf("%03d", n)]: zero padding to width three, the sign
    counted in the width. *)
Definition fmt_03d (n : Z) : string :=
  if n <? 0 then "-" ++ pad0 2 (digits (Z.to_N (- n)))
  else pad0 3 (digits (Z.to_N n)).

(** The [Error] method of a [textproto.Error] pointer, which in
    [net/textproto] is [fmt.Sprintf("%03d %s", e.Code, e.Msg)]. *)
Definition textproto_Error_Error (e : textproto_Error) : string :=
  fmt_03d (Code e) ++ " " ++ Msg e.

(** [NewError]: [&textproto.Error{Msg: err.Error(), Code: code}]. *)
Definition NewError (err : error) (code : Z) : textproto_Error :=
  {| Msg := error_Error err; Code := code |}.

(** [NewAppError]: [fmt.Errorf("[Gear] %s", err)]. *)
Definition NewAppError (err : string) : error :=
  errors_New ("[Gear] " ++ err).

(** ** External collaborators: the types *)

(** The transport objects the engine only passes around: [*http.Request],
    [http.ResponseWriter], [*log.Logger] and [net.Listener]. *)
Class Transport : Type := {
  Request : Type;
  ResponseWriter : Type;
  Logger : Type;
  Listener : Type
}.

(** What a Go function either returns or panics with. *)
Inductive Outcome (A : Type) : Type :=
| Returned (a : A)
| Panicked (e : error).

Arguments Returned {A} a.
Arguments Panicked {A} e.

Section DataModel.
Context {T : Transport}.

(** ** Response and Context *)

(** Modelled from the spec: the [Response] struct of [response.go] is not
    among the sources.  It holds the bound response writer, the status
    code (gettable and settable), the body to send and the fully-written
    flag, the four things section 6 of the specification lists and
    [ServeHTTP] reads and writes ([ctx.Res.Status], [ctx.Res.finished]). *)
Record Response : Type := {
  res : option ResponseWriter;
  Status : Z;
  Body : string;
  finished : bool
}.

(** A [Hook] is a Go function value [func(ctx *Context)].  A context stores
    function values that take the context itself, so a hook is named by
    an identifier and its code is looked up in the collaborators below. *)
Definition Hook : Type := nat.

(** Modelled from the spec: the [Context] struct of [context.go] is not
    among the sources.  Its attributes are those of section 3: the
    inbound request, the outbound response, the [ended] flag and the
    ordered after hooks (the back reference to the owning app is the
    [app] of the handler that serves it). *)
Record Context : Type := {
  Req : option Request;
  Res : Response;
  ended : bool;
  afterHooks : list Hook
}.

(** Field updates, the assignments [ctx.Res.Status = ...],
    [ctx.ended = ...], [ctx.afterHooks = ...] and [ctx.Res = ...]. *)
Definition set_Status (code : Z) (rs : Response) : Response :=
  {| res := res rs; Status := code; Body := Body rs; finished := finished rs |}.

Definition set_Body (b : string) (rs : Response) : Response :=
  {| res := res rs; Status := Status rs; Body := b; finished := finished rs |}.

Definition set_Res (rs : Response) (ctx : Context) : Context :=
  {| Req := Req ctx; Res := rs; ended := ended ctx; afterHooks := afterHooks ctx |}.

Definition set_ended (b : bool) (ctx : Context) : Context :=
  {| Req := Req ctx; Res := Res ctx; ended := b; afterHooks := afterHooks ctx |}.

Definition set_afterHooks (hs : list Hook) (ctx : Context) : Context :=
  {| Req := Req ctx; Res := Res ctx; ended := ended ctx; afterHooks := hs |}.

(** ** The application *)

(** [type Middleware func(ctx *Context) error]: the unit mutates the context
    it is given and returns nil ([None]) or an error. *)
Definition Middleware : Type := Context -> Context * option error.

(** the interface [Handler], whose method [Serve] is a middleware. *)
Class Handler (H : Type) : Type := { Serve : H -> Middleware }.

(** The fields of [Gear] the engine reads.  [pool] is shared and mutated
    by every request and lives in the [World]; [Server] is the
    [http_Server] below, passed next to the app because its handler
    refers back to the app. *)
Record Gear : Type := {
  middleware : list Middleware;
  OnError : Context -> error -> Context * option textproto_Error;
  ErrorLog : option Logger
}.

Record serveHandler : Type := {
  app : Gear;
  h_middleware : list Middleware
}.

(** The fields of [http.Server] that [app.go] assigns. *)
Record http_Server : Type := {
  Addr : string;
  Server_Handler : option serveHandler;
  Server_ErrorLog : option Logger
}.

(** [ServerListener]: the listener and the channel.  The channel is the
    one-shot result of the goroutine [c <- g.Server.Serve(l)]; it is
    rendered by the value that goroutine sends. *)
Record ServerListener : Type := {
  l : Listener;
  c : option error
}.

(** ** External collaborators: the operations *)

(** The code the engine calls and [app.go] does not define. *)
Class Collaborators : Type := {
  (** the code of the hook function values *)
  hook_body : Hook -> Context -> Context;
  (** [Response.respond]: finalise and send, with the transport's
      failure if any *)
  respond : Response -> Response * option error;
  (** [net.Listen] *)
  net_Listen : string -> string -> Listener + error;
  (** [http.Server.ListenAndServe], [ListenAndServeTLS] and [Serve] *)
  ListenAndServe : http_Server -> option error;
  ListenAndServeTLS : http_Server -> string -> string -> option error;
  Server_Serve : http_Server -> Listener -> option error;
  (** [net.Listener.Addr] and [Close] *)
  Listener_Addr : Listener -> string;
  Listener_Close : Listener -> option error
}.

End DataModel.

(** ** The world the engine runs in *)

Section Engine.
Context {T : Transport} {C : Collaborators}.

(** The calls [ServeHTTP] makes, in the order it makes them. *)
Inductive Event : Type :=
| EvGet                         (** [h.app.pool.Get()] *)
| EvReset (bound : bool)        (** [ctx.Reset(w, r)]; [false] for [Reset(nil, nil)] *)
| EvHandle (i : nat)            (** [handle(ctx)], [handle] the unit at index [i] *)
| EvOnError (e : error)         (** [h.app.OnError(ctx, err)] *)
| EvStatus (code : Z)           (** [ctx.Status(code)] *)
| EvAfterHook (hk : Hook)       (** one after hook run by [ctx.runAfterHooks()] *)
| EvError (e : option error)    (** [h.app.Error(err)] *)
| EvString (s : string)         (** [ctx.String(s)] *)
| EvRespond                     (** [ctx.Res.respond()] *)
| EvPut.                        (** [h.app.pool.Put(ctx)] *)

(** A line printed by [Println], on the app's [ErrorLog] ([Some]) or on
    the process-wide logger of package [log] ([None]). *)
Definition LogLine : Type := (option Logger * string)%type.

(** The state shared by requests: the free contexts of the [sync.Pool],
    what the logging sinks received, and the trace of calls. *)
Record World : Type := {
  pool : list Context;
  sink : list LogLine;
  trace : list Event
}.

(** State passing over the [World]. *)
Definition M (A : Type) : Type := World -> A * World.

Definition ret {A : Type} (a : A) : M A := fun wd => (a, wd).

Definition bind {A B : Type} (m : M A) (k : A -> M B) : M B :=
  fun wd => let (a, wd') := m wd in k a wd'.

Notation "x <- m ;; k" := (bind m (fun x => k))
  (at level 61, m at next level, right associativity).
Notation "' p <- m ;; k" := (bind m (fun x => match x with p => k end))
  (at level 61, p pattern, m at next level, right associativity).
Notation "m ;;; k" := (bind m (fun _ => k))
  (at level 61, right associativity).

Definition emit (e : Event) : M unit :=
  fun wd => (tt, {| pool := pool wd; sink := sink wd; trace := trace wd ++ [e] |}).

Definition Println (lg : option Logger) (line : string) : M unit :=
  fun wd => (tt, {| pool := pool wd; sink := sink wd ++ [(lg, line)]; trace := trace wd |}).

(** ** Context and pool operations *)

(** Modelled from the spec: [NewContext] of [context.go] is not among
    the sources; the pool's [New] creates a context bound to nothing. *)
Definition NewContext (g : Gear) : Context :=
  {| Req := None;
     Res := {| res := None; Status := 0; Body := ""; finished := false |};
     ended := false;
     afterHooks := [] |}.

(** [h.app.pool.Get()]: a free context if the pool has one, else
    [pool.New()]. *)
Definition pool_Get (g : Gear) : M Context :=
  emit EvGet ;;;
  fun wd =>
    match pool wd with
    | [] => (NewContext g, wd)
    | ctx :: free =>
        (ctx, {| pool := free; sink := sink wd; trace := trace wd |})
    end.

(** [h.app.pool.Put(ctx)]. *)
Definition pool_Put (ctx : Context) : M unit :=
  emit EvPut ;;;
  fun wd => (tt, {| pool := ctx :: pool wd; sink := sink wd; trace := trace wd |}).

(** Modelled from the spec: [Context.Reset] of [context.go] is not among
    the sources.  A reset rebinds request and response, clears [ended] and
    clears the after hooks (section 3, lifecycle); the response bound to
    the new writer starts in Go's zero state. *)
Definition Context_Reset (ctx : Context)
    (w : option ResponseWriter) (r : option Request) : M Context :=
  emit (EvReset (match w with Some _ => true | None => false end)) ;;;
  ret {| Req := r;
         Res := {| res := w; Status := 0; Body := ""; finished := false |};
         ended := false;
         afterHooks := [] |}.

(** Modelled from the spec: [Context.Status] of [context.go] is not
    among the sources; it sets the response's status code. *)
Definition Context_Status (ctx : Context) (code : Z) : M Context :=
  emit (EvStatus code) ;;;
  ret (set_Res (set_Status code (Res ctx)) ctx).

(** Modelled from the spec: [Context.String] of [context.go] is not
    among the sources; it is the body-write operation, the text becomes
    the response body. *)
Definition Context_String (ctx : Context) (str : string) : M Context :=
  emit (EvString str) ;;;
  ret (set_Res (set_Body str (Res ctx)) ctx).

(** Modelled from the spec: [Context.runAfterHooks] of [context.go] is
    not among the sources; it runs the queued after hooks in
    registration order, each once (section 4.3, step 5). *)
Fixpoint run_hooks (hs : list Hook) (ctx : Context) : M Context :=
  match hs with
  | [] => ret ctx
  | hk :: rest =>
      emit (EvAfterHook hk) ;;;
      run_hooks rest (hook_body hk ctx)
  end.

Definition Context_runAfterHooks (ctx : Context) : M Context :=
  run_hooks (afterHooks ctx) ctx.

(** [ctx.Res.respond()], the collaborator applied to the context's
    response. *)
Definition Response_respond (ctx : Context) : M (Context * option error) :=
  emit EvRespond ;;;
  let (rs, err) := respond (Res ctx) in
  ret (set_Res rs ctx, err).

(** ** [Gear.Error] *)

(** [func (g *Gear) Error(err error)]: the guard is [err == nil], so a
    line is printed for the nil error only. *)
Definition Gear_Error (g : Gear) (err : option error) : M unit :=
  emit (EvError err) ;;;
  match err with
  | None =>
      match ErrorLog g with
      | Some lg => Println (Some lg) fmt_nil
      | None => Println None fmt_nil
      end
  | Some _ => ret tt
  end.

(** ** [serveHandler.ServeHTTP] *)

(** The loop [for _, handle := range h.middleware]: [i] is the index of
    the head of [ms] in [h.middleware]. *)
Fixpoint range_middleware (ms : list Middleware) (i : nat) (ctx : Context)
    : M (Context * option error) :=
  match ms with
  | [] => ret (ctx, None)
  | handle :: rest =>
      emit (EvHandle i) ;;;
      let (ctx', err) := handle ctx in
      match err with
      | Some e => ret (ctx', Some e)
      | None =>
          if ended ctx' || finished (Res ctx')
          then ret (ctx', None)
          else range_middleware rest (S i) ctx'
      end
  end.

(** [if err != nil { if ctxErr := h.app.OnError(ctx, err); ctxErr != nil
    { ctx.Status(ctxErr.Code); err = errors.New(ctxErr.Error()) } }]. *)
Definition normalize (h : serveHandler) (ctx : Context) (err : option error)
    : M (Context * option error) :=
  match err with
  | None => ret (ctx, None)
  | Some e =>
      emit (EvOnError e) ;;;
      let (ctx1, ctxErr) := OnError (app h) ctx e in
      match ctxErr with
      | Some ce =>
          ctx2 <- Context_Status ctx1 (Code ce) ;;
          ret (ctx2, Some (errors_New (textproto_Error_Error ce)))
      | None => ret (ctx1, Some e)
      end
  end.

(** [if ctx.Res.Status < 400 { ctx.Res.Status = 500 }]. *)
Definition force_500 (ctx : Context) : Context :=
  if Status (Res ctx) <? 400
  then set_Res (set_Status 500 (Res ctx)) ctx
  else ctx.

(** The two branches of [if err == nil { ... } else { ... }]. *)
Definition finish (h : serveHandler) (ctx : Context) (err : option error)
    : M Context :=
  match err with
  | None => Context_runAfterHooks ctx
  | Some e =>
      let ctx1 := force_500 ctx in
      (if Status (Res ctx1) >=? 500 then Gear_Error (app h) (Some e) else ret tt) ;;;
      ctx2 <- Context_String ctx1 (error_Error e) ;;
      ret (set_afterHooks [] ctx2)
  end.

(** Lines 171 to 184: acquire a context, bind it, run the chain and set
    [ctx.ended = true]. *)
Definition run_chain (h : serveHandler) (w : ResponseWriter) (r : Request)
    : M (Context * option error) :=
  ctx <- pool_Get (app h) ;;
  ctx <- Context_Reset ctx (Some w) (Some r) ;;
  '(ctx, err) <- range_middleware (h_middleware h) 0 ctx ;;
  ret (set_ended true ctx, err).

(** Lines 207 to 213: flush, report a flush failure, reset to nil
    bindings and release. *)
Definition flush_release (h : serveHandler) (ctx : Context) : M unit :=
  '(ctx, err) <- Response_respond ctx ;;
  match err with
  | Some e => Gear_Error (app h) (Some e)
  | None => ret tt
  end ;;;
  ctx <- Context_Reset ctx None None ;;
  pool_Put ctx.

(** [func (h *serveHandler) ServeHTTP(w http.ResponseWriter, r *http.Request)]. *)
Definition ServeHTTP (h : serveHandler) (w : ResponseWriter) (r : Request)
    : M unit :=
  '(ctx, err) <- run_chain h w r ;;
  '(ctx, err) <- normalize h ctx err ;;
  ctx <- finish h ctx err ;;
  flush_release h ctx.

(** The engine up to the end of normalization, and up to the point
    where the response is flushed; each returns the context and the
    working error [err] at that point. *)
Definition upto_normalize (h : serveHandler) (w : ResponseWriter) (r : Request)
    : M (Context * option error) :=
  '(ctx, err) <- run_chain h w r ;;
  normalize h ctx err.

Definition upto_finish (h : serveHandler) (w : ResponseWriter) (r : Request)
    : M (Context * option error) :=
  '(ctx, err) <- upto_normalize h w r ;;
  ctx' <- finish h ctx err ;;
  ret (ctx', err).

(** The events one request adds to the trace. *)
Definition events (h : serveHandler) (w : ResponseWriter) (r : Request)
    (wd : World) : list Event :=
  skipn (List.length (trace wd)) (trace (snd (ServeHTTP h w r wd))).

(** ** Reading a trace *)

(** The indices of the units invoked. *)
Definition handled (tr : list Event) : list nat :=
  flat_map (fun e => match e with EvHandle i => [i] | _ => [] end) tr.

(** The after hooks run. *)
Definition hooks_run (tr : list Event) : list Hook :=
  flat_map (fun e => match e with EvAfterHook hk => [hk] | _ => [] end) tr.

(** The texts passed to [ctx.String]. *)
Definition bodies_written (tr : list Event) : list string :=
  flat_map (fun e => match e with EvString s => [s] | _ => [] end) tr.

(** The codes passed to [ctx.Status]. *)
Definition statuses_set (tr : list Event) : list Z :=
  flat_map (fun e => match e with EvStatus code => [code] | _ => [] end) tr.

(** The errors passed to [h.app.OnError]. *)
Definition errors_normalized (tr : list Event) : list error :=
  flat_map (fun e => match e with EvOnError e' => [e'] | _ => [] end) tr.

(** The errors passed to [h.app.Error]. *)
Definition errors_reported (tr : list Event) : list (option error) :=
  flat_map (fun e => match e with EvError e' => [e'] | _ => [] end) tr.

Definition is_Get (e : Event) : bool :=
  match e with EvGet => true | _ => false end.

Definition is_Put (e : Event) : bool :=
  match e with EvPut => true | _ => false end.

(** How many contexts the trace takes from the pool, and gives back. *)
Definition acquisitions (tr : list Event) : nat :=
  List.length (filter is_Get tr).

Definition releases (tr : list Event) : nat :=
  List.length (filter is_Put tr).

(** The context [ctx.Reset(nil, nil)] leaves: bound to nothing. *)
Definition unbound_Context : Context :=
  {| Req := None;
     Res := {| res := None; Status := 0; Body := ""; finished := false |};
     ended := false;
     afterHooks := [] |}.

(** The world once [pool.Get] has taken a context out of it. *)
Definition taken (wd : World) : World :=
  {| pool := tl (pool wd); sink := sink wd; trace := trace wd |}.

(** The world once [pool.Put] has put [ctx] back. *)
Definition given_back (ctx : Context) (wd : World) : World :=
  {| pool := ctx :: pool wd; sink := sink wd; trace := trace wd |}.

(** The world with more events on its trace. *)
Definition traced (wd : World) (evs : list Event) : World :=
  {| pool := pool wd; sink := sink wd; trace := trace wd ++ evs |}.

(** The events of [flush_release] on [ctx], and the events of the error
    branch of [finish] on [ctx] with the working error [e]. *)
Definition flush_events (ctx : Context) : list Event :=
  [EvRespond]
  ++ match snd (respond (Res ctx)) with
     | Some e => [EvError (Some e)]
     | None => []
     end
  ++ [EvReset false; EvPut].

Definition error_events (ctx : Context) (e : error) : list Event :=
  (if Status (Res (force_500 ctx)) >=? 500 then [EvError (Some e)] else [])
  ++ [EvString (error_Error e)].

(** ** Reading a chain *)

(** Whether a unit run on [ctx] ends the iteration: it returns an error,
    or leaves [ctx.ended] or [ctx.Res.finished] set. *)
Definition halts (handle : Middleware) (ctx : Context) : bool :=
  let (ctx', err) := handle ctx in
  match err with
  | Some _ => true
  | None => ended ctx' || finished (Res ctx')
  end.

(** The context the unit at index [j] is given when every unit before
    it has run. *)
Definition ctx_at (ms : list Middleware) (ctx : Context) (j : nat) : Context :=
  fold_left (fun cx handle => fst (handle cx)) (firstn j ms) ctx.

(** The context [ctx.Reset(w, r)] leaves: bound, not ended, no hooks. *)
Definition bound_Context (w : ResponseWriter) (r : Request) : Context :=
  {| Req := Some r;
     Res := {| res := Some w; Status := 0; Body := ""; finished := false |};
     ended := false;
     afterHooks := [] |}.

End Engine.

(** ** Registration, server front end and adapters *)

Section Frontend.
Context {T : Transport} {C : Collaborators}.

(** [New]: no middleware, the default [OnError] that answers
    [NewError(err, 500)], no [ErrorLog]. *)
Definition New : Gear :=
  {| middleware := [];
     OnError := fun ctx err => (ctx, Some (NewError err 500));
     ErrorLog := None |}.

(** The fresh [http.Server] that [New] stores in [g.Server]. *)
Definition new_Server : http_Server :=
  {| Addr := ""; Server_Handler := None; Server_ErrorLog := None |}.

(** [Use]: [g.middleware = append(g.middleware, handle)]. *)
Definition Use (g : Gear) (handle : Middleware) : Gear :=
  {| middleware := middleware g ++ [handle];
     OnError := OnError g;
     ErrorLog := ErrorLog g |}.

(** [UseHandler]: [g.middleware = append(g.middleware, h.Serve)]. *)
Definition UseHandler {H : Type} {HH : Handler H} (g : Gear) (h : H) : Gear :=
  Use g (Serve h).

(** [toServeHandler]: panics on the empty chain. *)
Definition toServeHandler (g : Gear) : Outcome serveHandler :=
  if (List.length (middleware g) =? 0)%nat
  then Panicked (NewAppError "no middleware")
  else Returned {| app := g; h_middleware := middleware g |}.

(** [if g.ErrorLog != nil { g.Server.ErrorLog = g.ErrorLog }]. *)
Definition attach_ErrorLog (g : Gear) (srv : http_Server) : http_Server :=
  match ErrorLog g with
  | Some lg =>
      {| Addr := Addr srv;
         Server_Handler := Server_Handler srv;
         Server_ErrorLog := Some lg |}
  | None => srv
  end.

Definition set_Addr (addr : string) (srv : http_Server) : http_Server :=
  {| Addr := addr;
     Server_Handler := Server_Handler srv;
     Server_ErrorLog := Server_ErrorLog srv |}.

Definition set_Handler (h : serveHandler) (srv : http_Server) : http_Server :=
  {| Addr := Addr srv;
     Server_Handler := Some h;
     Server_ErrorLog := Server_ErrorLog srv |}.

(** [Listen]: the server as the call leaves it and what
    [ListenAndServe] returned, or the panic. *)
Definition Listen (g : Gear) (srv : http_Server) (addr : string)
    : Outcome (http_Server * option error) :=
  let srv := set_Addr addr srv in
  match toServeHandler g with
  | Panicked e => Panicked e
  | Returned h =>
      let srv := attach_ErrorLog g (set_Handler h srv) in
      Returned (srv, ListenAndServe srv)
  end.

(** [ListenTLS]. *)
Definition ListenTLS (g : Gear) (srv : http_Server)
    (addr certFile keyFile : string)
    : Outcome (http_Server * option error) :=
  let srv := set_Addr addr srv in
  match toServeHandler g with
  | Panicked e => Panicked e
  | Returned h =>
      let srv := attach_ErrorLog g (set_Handler h srv) in
      Returned (srv, ListenAndServeTLS srv certFile keyFile)
  end.

(** The address [Start] listens on: ["127.0.0.1:0"] unless a first
    argument is given and is not empty. *)
Definition Start_laddr (addr : list string) : string :=
  match addr with
  | a :: _ => if String.eqb a "" then "127.0.0.1:0" else a
  | [] => "127.0.0.1:0"
  end.

(** [Start], with its variadic [addr ...string] as a list. *)
Definition Start (g : Gear) (srv : http_Server) (addr : list string)
    : Outcome (http_Server * ServerListener) :=
  let laddr := Start_laddr addr in
  match toServeHandler g with
  | Panicked e => Panicked e
  | Returned h =>
      let srv := attach_ErrorLog g (set_Handler h srv) in
      match net_Listen "tcp" laddr with
      | inr err =>
          Panicked (NewAppError
            ("failed to listen on " ++ laddr ++ ": " ++ error_Error err))
      | inl ln =>
          Returned (srv, {| l := ln; c := Server_Serve srv ln |})
      end
  end.

(** The methods of [ServerListener]. *)
Definition ServerListener_Close (s : ServerListener) : option error :=
  Listener_Close (l s).

Definition ServerListener_Addr (s : ServerListener) : string :=
  Listener_Addr (l s).

Definition ServerListener_Wait (s : ServerListener) : option error :=
  c s.

(** [http.Handler]: [ServeHTTP(w, r)] writes to the response it is given
    (the context's [Res]) and reads the request. *)
Class http_Handler (H : Type) : Type := {
  Handler_ServeHTTP : H -> Response -> option Request -> Response
}.

(** [http.HandlerFunc], a function of the same shape. *)
Definition http_HandlerFunc : Type := Response -> option Request -> Response.

(** [WrapHandler]: [h.ServeHTTP(ctx.Res, ctx.Req); return nil]. *)
Definition WrapHandler {H : Type} {HH : http_Handler H} (h : H) : Middleware :=
  fun ctx => (set_Res (Handler_ServeHTTP h (Res ctx) (Req ctx)) ctx, None).

(** [WrapHandlerFunc]: [h(ctx.Res, ctx.Req); return nil]. *)
Definition WrapHandlerFunc (h : http_HandlerFunc) : Middleware :=
  fun ctx => (set_Res (h (Res ctx) (Req ctx)) ctx, None).

(** A unit made by one of the two adapters. *)
Definition wrapped (handle : Middleware) : Prop :=
  (exists (H : Type) (HH : http_Handler H) (hd : H), handle = WrapHandler hd)
  \/ (exists f : http_HandlerFunc, handle = WrapHandlerFunc f).

End Frontend.

(** ** A concrete transport, for running the engine *)

Module Fixture.

(** Requests are their paths, response writers, loggers are numbered,
    listeners are the address they are bound to. *)
Definition transport : Transport :=
  {| Request := string; ResponseWriter := nat; Logger := nat; Listener := string |}.

(** Hook [n] appends a mark to the body; [respond] marks the response
    finished and fails on status 599; no address but ["bad:addr"] fails
    to bind; a served listener ends with the error ["closed"]. *)
Definition collaborators : @Collaborators transport :=
  {| hook_body := fun hk ctx =>
       set_Res (set_Body (Body (Res ctx) ++ "+hook") (Res ctx)) ctx;
     respond := fun rs =>
       ({| res := res rs; Status := Status rs; Body := Body rs; finished := true |},
        if Status rs =? 599 then Some "write failed" else None);
     net_Listen := fun network addr =>
       if String.eqb addr "bad:addr"
       then inr (errors_New "address unavailable")
       else inl (addr : @Listener transport);
     ListenAndServe := fun srv => Some "closed";
     ListenAndServeTLS := fun srv cert key => Some "closed";
     Server_Serve := fun srv ln => Some "closed";
     Listener_Addr := fun ln => ln;
     Listener_Close := fun ln => None |}.

#[local] Existing Instance transport.
#[local] Existing Instance collaborators.

(** A unit that does nothing and returns nil. *)
Definition unit_pass : Middleware := fun ctx => (ctx, None).

(** A unit that returns the error ["boom"]. *)
Definition unit_boom : Middleware := fun ctx => (ctx, Some (errors_New "boom")).

(** A unit that queues after hook 7 and returns nil. *)
Definition unit_after : Middleware :=
  fun ctx => (set_afterHooks (afterHooks ctx ++ [7%nat]) ctx, None).

(** A unit that writes ["ok"], sets [ended] and returns nil. *)
Definition unit_end : Middleware :=
  fun ctx => (set_ended true (set_Res (set_Body "ok" (Res ctx)) ctx), None).

(** A unit that sets status 404 and returns the error ["missing"]. *)
Definition unit_404 : Middleware :=
  fun ctx => (set_Res (set_Status 404 (Res ctx)) ctx, Some (errors_New "missing")).

(** An [OnError] that declines to answer. *)
Definition OnError_nil : Context -> error -> Context * option textproto_Error :=
  fun ctx err => (ctx, None).

(** An [OnError] that answers a fixed record. *)
Definition OnError_const (ce : textproto_Error)
    : Context -> error -> Context * option textproto_Error :=
  fun ctx err => (ctx, Some ce).

(** The app of [New] after [Use] of each unit of [ms] in turn. *)
Definition app_of (ms : list Middleware) : Gear :=
  fold_left Use ms New.

(** An app with the units [ms] and the error hook [on]. *)
Definition app_on (on : Context -> error -> Context * option textproto_Error)
    (ms : list Middleware) : Gear :=
  {| middleware := ms; OnError := on; ErrorLog := None |}.

(** A handler function that writes ["hello"] and finishes the response. *)
Definition hello : http_HandlerFunc :=
  fun rs _ =>
    {| res := res rs; Status := 200; Body := "hello"; finished := true |}.

Definition handler_of (g : Gear) : serveHandler :=
  {| app := g; h_middleware := middleware g |}.

(** An empty world: no free context, nothing logged, nothing traced. *)
Definition world0 : World := {| pool := []; sink := []; trace := [] |}.

End Fixture.

(** ** More readers of a trace *)

Section MoreReaders.
Context {T : Transport} {C : Collaborators}.

Definition is_Respond (e : Event) : bool :=
  match e with EvRespond => true | _ => false end.

(** How many times the trace flushes the response. *)
Definition flushes (tr : list Event) : nat :=
  List.length (filter is_Respond tr).

End MoreReaders.

(** ** The greeter client of [example/grpc_client/app.go] *)

Module GreeterClient.

(** The gRPC collaborators of the client: credentials, connections and
    the remote greeter, whose state [Greeter] a call may change. *)
Class Grpc : Type := {
  Creds : Type;
  Conn : Type;
  Greeter : Type;
  (** [credentials.NewClientTLSFromFile(certFile, serverName)] *)
  NewClientTLSFromFile : string -> string -> Creds + error;
  (** [grpc.Dial(target, grpc.WithTransportCredentials(cr))] *)
  Dial : string -> Creds -> Conn + error;
  (** [c.SayHello(ctx, &pb.HelloRequest{Name: name})]: the reply's
      [Message] or the error *)
  SayHello : Conn -> string -> Greeter -> (string + error) * Greeter
}.

(** What the client does that can be seen from outside. *)
Inductive Action : Type :=
| Logged (line : string)     (** a line of the process logger *)
| Said (name : string)       (** a [SayHello] call with this name *)
| Closed.                    (** [conn.Close()] *)

(** How [main] ends: it returns, or [log.Fatalf] calls [os.Exit(1)]
    and the deferred calls do not run. *)
Inductive Ending : Type :=
| Returns
| OsExit (code : Z).

Section Main.
Context {G : Grpc}.

(** [strconv.Itoa] on the loop index. *)
Definition Itoa (i : nat) : string := digits (N.of_nat i).

(** [for i := 0; i < 10; i++ { ... }], with [n] iterations left at
    index [i]: the actions so far, whether the loop exited the process,
    and the greeter afterwards. *)
Fixpoint greet_loop (conn : Conn) (n i : nat) (gr : Greeter)
    (done : list Action) : list Action * option Z * Greeter :=
  match n with
  | O => (done, None, gr)
  | S n' =>
      let (reply, gr') := SayHello conn (Itoa i) gr in
      match reply with
      | inr err =>
          ((done ++ [Said (Itoa i);
                     Logged ("could not greet: " ++ error_Error err)%string])%list,
           Some 1, gr')
      | inl message =>
          greet_loop conn n' (S i) gr'
            (done ++ [Said (Itoa i);
                      Logged ("Greeting: " ++ message)%string])%list
      end
  end.

(** [func main()]. *)
Definition main (gr : Greeter) : list Action * Ending :=
  match NewClientTLSFromFile "./testdata/out/GearTest.crt" "127.0.0.1" with
  | inr err => ([Logged ("credentials error: " ++ error_Error err)], OsExit 1)
  | inl cr =>
      match Dial "127.0.0.1:3000" cr with
      | inr err => ([Logged ("did not connect: " ++ error_Error err)], OsExit 1)
      | inl conn =>
          match greet_loop conn 10 0 gr [] with
          | (done, Some code, _) => (done, OsExit code)
          | (done, None, _) => ((done ++ [Closed])%list, Returns)
          end
      end
  end.

(** The names sent, and whether the connection was closed. *)
Definition said (tr : list Action) : list string :=
  flat_map (fun a => match a with Said name => [name] | _ => [] end) tr.

Definition greetings (tr : list Action) : nat :=
  List.length (said tr).


End Main.

(** The last two lines of [bench]: [sec := int(time.Now().Sub(t) / 1e6)]
    and the operand [total / (sec / 1000)] of the final [log.Printf],
    with Go's truncating division and its panic on a zero divisor;
    [elapsed] is the duration in nanoseconds. *)
Definition bench_ops (total elapsed : Z) : Outcome Z :=
  let sec := Z.quot elapsed 1000000 in
  if Z.quot sec 1000 =? 0
  then Panicked (errors_New "runtime error: integer divide by zero")
  else Returned (Z.quot total (Z.quot sec 1000)).

(** A greeter that counts its calls and refuses the call number
    [limit]; credentials and dialing succeed. *)
Definition counting (limit : nat) : Grpc :=
  {| Creds := unit; Conn := unit; Greeter := nat;
     NewClientTLSFromFile := fun _ _ => inl tt;
     Dial := fun _ _ => inl tt;
     SayHello := fun _ name calls =>
       (if (calls =? limit)%nat
        then inr (errors_New "unavailable")
        else inl ("Hello " ++ name)%string,
        S calls) |}.

End GreeterClient.

(** * Properties *)

Local Open Scope list_scope.

Section Properties.
Context {T : Transport} {C : Collaborators}.

(** ** Traces *)

Lemma traced_nil (wd : World) : traced wd [] = wd.
Proof.
  destruct wd as [p s t]; unfold traced; simpl.
  now rewrite app_nil_r.
Qed.

Lemma traced_traced (wd : World) (a b : list Event) :
  traced (traced wd a) b = traced wd (a ++ b).
Proof.
  unfold traced; simpl. now rewrite app_assoc.
Qed.

Lemma handled_app (a b : list Event) : handled (a ++ b) = handled a ++ handled b.
Proof. apply flat_map_app. Qed.

Lemma hooks_run_app (a b : list Event) :
  hooks_run (a ++ b) = hooks_run a ++ hooks_run b.
Proof. apply flat_map_app. Qed.

Lemma bodies_written_app (a b : list Event) :
  bodies_written (a ++ b) = bodies_written a ++ bodies_written b.
Proof. apply flat_map_app. Qed.

Lemma statuses_set_app (a b : list Event) :
  statuses_set (a ++ b) = statuses_set a ++ statuses_set b.
Proof. apply flat_map_app. Qed.

Lemma errors_normalized_app (a b : list Event) :
  errors_normalized (a ++ b) = errors_normalized a ++ errors_normalized b.
Proof. apply flat_map_app. Qed.

Lemma handled_EvHandle (ixs : list nat) : handled (map EvHandle ixs) = ixs.
Proof.
  induction ixs as [|i ixs IH]; simpl; [reflexivity | now rewrite IH].
Qed.

Lemma hooks_run_EvHandle (ixs : list nat) : hooks_run (map EvHandle ixs) = [].
Proof. induction ixs as [|i ixs IH]; simpl; auto. Qed.

Lemma bodies_written_EvHandle (ixs : list nat) :
  bodies_written (map EvHandle ixs) = [].
Proof. induction ixs as [|i ixs IH]; simpl; auto. Qed.

Lemma statuses_set_EvHandle (ixs : list nat) :
  statuses_set (map EvHandle ixs) = [].
Proof. induction ixs as [|i ixs IH]; simpl; auto. Qed.

Lemma errors_normalized_EvHandle (ixs : list nat) :
  errors_normalized (map EvHandle ixs) = [].
Proof. induction ixs as [|i ixs IH]; simpl; auto. Qed.

Lemma hooks_run_EvAfterHook (hs : list Hook) :
  hooks_run (map EvAfterHook hs) = hs.
Proof.
  induction hs as [|hk hs IH]; simpl; [reflexivity | now rewrite IH].
Qed.

Lemma handled_EvAfterHook (hs : list Hook) : handled (map EvAfterHook hs) = [].
Proof. induction hs as [|hk hs IH]; simpl; auto. Qed.

Lemma bodies_written_EvAfterHook (hs : list Hook) :
  bodies_written (map EvAfterHook hs) = [].
Proof. induction hs as [|hk hs IH]; simpl; auto. Qed.

Lemma statuses_set_EvAfterHook (hs : list Hook) :
  statuses_set (map EvAfterHook hs) = [].
Proof. induction hs as [|hk hs IH]; simpl; auto. Qed.

Lemma errors_normalized_EvAfterHook (hs : list Hook) :
  errors_normalized (map EvAfterHook hs) = [].
Proof. induction hs as [|hk hs IH]; simpl; auto. Qed.

Lemma acquisitions_app (a b : list Event) :
  acquisitions (a ++ b) = (acquisitions a + acquisitions b)%nat.
Proof. unfold acquisitions. now rewrite filter_app, length_app. Qed.

Lemma releases_app (a b : list Event) :
  releases (a ++ b) = (releases a + releases b)%nat.
Proof. unfold releases. now rewrite filter_app, length_app. Qed.

Lemma acquisitions_EvHandle (ixs : list nat) :
  acquisitions (map EvHandle ixs) = 0%nat.
Proof. induction ixs as [|i ixs IH]; simpl; auto. Qed.

Lemma releases_EvHandle (ixs : list nat) : releases (map EvHandle ixs) = 0%nat.
Proof. induction ixs as [|i ixs IH]; simpl; auto. Qed.

Lemma acquisitions_EvAfterHook (hs : list Hook) :
  acquisitions (map EvAfterHook hs) = 0%nat.
Proof. induction hs as [|hk hs IH]; simpl; auto. Qed.

Lemma releases_EvAfterHook (hs : list Hook) :
  releases (map EvAfterHook hs) = 0%nat.
Proof. induction hs as [|hk hs IH]; simpl; auto. Qed.

(** ** The chain loop *)

Lemma ctx_at_cons (handle : Middleware) (rest : list Middleware)
    (ctx : Context) (j : nat) :
  ctx_at (handle :: rest) ctx (S j) = ctx_at rest (fst (handle ctx)) j.
Proof. reflexivity. Qed.

(** What the loop did when it ends: [k] units were invoked, on the
    indices [i, i+1, ...]; none but the last ended the iteration; if
    units are left over the last one did. *)
Lemma range_middleware_run (ms : list Middleware) :
  forall (i : nat) (ctx : Context) (wd : World),
  exists (k : nat) (ctx' : Context) (err : option error),
    range_middleware ms i ctx wd
      = ((ctx', err), traced wd (map EvHandle (seq i k)))
    /\ (k <= List.length ms)%nat
    /\ (ms <> [] -> 1 <= k)%nat
    /\ (forall j handle, (S j < k)%nat -> nth_error ms j = Some handle ->
          halts handle (ctx_at ms ctx j) = false)
    /\ (forall handle, (k < List.length ms)%nat ->
          nth_error ms (k - 1) = Some handle ->
          halts handle (ctx_at ms ctx (k - 1)) = true)
    /\ (forall e, err = Some e ->
          exists handle cx, In handle ms /\ snd (handle cx) = Some e)
    /\ ((k < List.length ms)%nat -> err = None ->
          ended ctx' || finished (Res ctx') = true).
Proof.
  induction ms as [|handle rest IH]; intros i ctx wd.
  - exists 0%nat, ctx, None. simpl. rewrite traced_nil. unfold ret.
    split; [reflexivity|]. split; [lia|]. split; [congruence|].
    split; [intros j hd Hj _; lia|].
    split; [intros hd Hk; simpl in Hk; lia|].
    split; [discriminate|].
    intros Hk; simpl in Hk; lia.
  - simpl. unfold bind, emit. simpl.
    destruct (handle ctx) as [ctx1 [e|]] eqn:Hh.
    + exists 1%nat, ctx1, (Some e). simpl. unfold ret.
      split; [reflexivity|]. split; [lia|]. split; [lia|].
      split; [intros j hd Hj _; lia|].
      split.
      { intros hd _ Hn. simpl in Hn. injection Hn as <-.
        unfold halts, ctx_at. simpl. now rewrite Hh. }
      split; [|discriminate].
      intros e' He'. injection He' as <-.
      exists handle, ctx. split; [now left | now rewrite Hh].
    + destruct (ended ctx1 || finished (Res ctx1)) eqn:Hstop.
      * exists 1%nat, ctx1, None. simpl. unfold ret.
        split; [reflexivity|]. split; [lia|]. split; [lia|].
        split; [intros j hd Hj _; lia|].
        split.
        { intros hd _ Hn. simpl in Hn. injection Hn as <-.
          unfold halts, ctx_at. simpl. now rewrite Hh, Hstop. }
        split; [discriminate|].
        intros _ _. exact Hstop.
      * destruct (IH (S i) ctx1 (traced wd [EvHandle i]))
          as (k & ctx' & err & Hrun & Hle & Hpos & Hbefore & Hlast & Herr & Hflag).
        exists (S k), ctx', err.
        unfold traced in Hrun. simpl in Hrun. rewrite Hrun.
        split.
        { unfold traced. simpl. now rewrite <- app_assoc. }
        split; [simpl; lia|].
        split; [lia|].
        split.
        { intros j hd Hj Hn. destruct j as [|j].
          - simpl in Hn. injection Hn as <-.
            unfold halts, ctx_at. simpl. now rewrite Hh, Hstop.
          - rewrite ctx_at_cons, Hh. simpl.
            apply Hbefore; [lia | exact Hn]. }
        split.
        { intros hd Hk Hn. simpl in Hk.
          destruct k as [|k].
          - destruct rest as [|m rest']; [simpl in Hk; lia|].
            exfalso. assert (1 <= 0)%nat by (apply Hpos; discriminate). lia.
          - replace (S (S k) - 1)%nat with (S (S k - 1)) in * by lia.
            rewrite ctx_at_cons, Hh. simpl.
            apply Hlast; [lia | exact Hn]. }
        split.
        { intros e He. destruct (Herr e He) as (hd & cx & Hin & Hs).
          exists hd, cx. split; [now right | exact Hs]. }
        { intros Hk He. apply Hflag; [simpl in Hk; lia | exact He]. }
Qed.

(** The hooks run in queue order, each once. *)
Lemma run_hooks_run (hs : list Hook) :
  forall (ctx : Context) (wd : World),
    run_hooks hs ctx wd
      = (fold_left (fun cx hk => hook_body hk cx) hs ctx,
         traced wd (map EvAfterHook hs)).
Proof.
  induction hs as [|hk rest IH]; intros ctx wd; simpl.
  - unfold ret. now rewrite traced_nil.
  - unfold bind, emit. simpl. rewrite IH.
    unfold traced. simpl. now rewrite <- app_assoc.
Qed.

(** ** The steps of one request *)

Lemma skipn_length_app {A : Type} (a b : list A) :
  skipn (List.length a) (a ++ b) = b.
Proof. induction a as [|x a IH]; simpl; auto. Qed.

(** Acquire, bind, run the chain, mark ended. *)
Lemma run_chain_run (h : serveHandler) (w : ResponseWriter) (r : Request)
    (wd : World) :
  exists (k : nat) (ctx1 : Context) (err1 : option error),
    run_chain h w r wd
      = ((set_ended true ctx1, err1),
         traced (taken wd) ([EvGet; EvReset true] ++ map EvHandle (seq 0 k)))
    /\ range_middleware (h_middleware h) 0 (bound_Context w r)
         (traced (taken wd) [EvGet; EvReset true])
       = ((ctx1, err1),
          traced (taken wd) ([EvGet; EvReset true] ++ map EvHandle (seq 0 k)))
    /\ (k <= List.length (h_middleware h))%nat
    /\ (h_middleware h <> [] -> 1 <= k)%nat
    /\ (forall j handle, (S j < k)%nat ->
          nth_error (h_middleware h) j = Some handle ->
          halts handle (ctx_at (h_middleware h) (bound_Context w r) j) = false)
    /\ (forall handle, (k < List.length (h_middleware h))%nat ->
          nth_error (h_middleware h) (k - 1) = Some handle ->
          halts handle (ctx_at (h_middleware h) (bound_Context w r) (k - 1)) = true)
    /\ (forall e, err1 = Some e ->
          exists handle cx, In handle (h_middleware h) /\ snd (handle cx) = Some e)
    /\ ((k < List.length (h_middleware h))%nat -> err1 = None ->
          ended ctx1 || finished (Res ctx1) = true).
Proof.
  destruct (range_middleware_run (h_middleware h) 0 (bound_Context w r)
              (traced (taken wd) [EvGet; EvReset true]))
    as (k & ctx1 & err1 & Hrun & Hfacts).
  exists k, ctx1, err1.
  rewrite traced_traced in Hrun.
  split; [|split; [exact Hrun | exact Hfacts]].
  unfold run_chain, bind, pool_Get, Context_Reset, emit, ret, bind.
  destruct wd as [[|c0 free] sk tr];
    unfold taken, traced, bound_Context in *; simpl in *;
    rewrite <- app_assoc; simpl; rewrite Hrun; reflexivity.
Qed.

Lemma normalize_None (h : serveHandler) (ctx : Context) (wd : World) :
  normalize h ctx None wd = ((ctx, None), wd).
Proof. reflexivity. Qed.

Lemma normalize_Some (h : serveHandler) (ctx : Context) (e : error)
    (wd : World) :
  normalize h ctx (Some e) wd =
    match OnError (app h) ctx e with
    | (ctx1, Some ce) =>
        ((set_Res (set_Status (Code ce) (Res ctx1)) ctx1,
          Some (errors_New (textproto_Error_Error ce))),
         traced wd [EvOnError e; EvStatus (Code ce)])
    | (ctx1, None) => ((ctx1, Some e), traced wd [EvOnError e])
    end.
Proof.
  unfold normalize, bind, emit, Context_Status, bind, emit, ret. simpl.
  destruct (OnError (app h) ctx e) as [ctx1 [ce|]]; simpl.
  - unfold traced. simpl. now rewrite <- app_assoc.
  - reflexivity.
Qed.

Lemma finish_None (h : serveHandler) (ctx : Context) (wd : World) :
  finish h ctx None wd =
    (fold_left (fun cx hk => hook_body hk cx) (afterHooks ctx) ctx,
     traced wd (map EvAfterHook (afterHooks ctx))).
Proof. apply run_hooks_run. Qed.

Lemma finish_Some (h : serveHandler) (ctx : Context) (e : error)
    (wd : World) :
  finish h ctx (Some e) wd =
    (set_afterHooks []
       (set_Res (set_Body (error_Error e) (Res (force_500 ctx))) (force_500 ctx)),
     traced wd
       ((if Status (Res (force_500 ctx)) >=? 500
         then [EvError (Some e)] else [])
        ++ [EvString (error_Error e)])).
Proof.
  unfold finish, bind, Context_String, Gear_Error, bind, emit, ret. simpl.
  destruct (Status (Res (force_500 ctx)) >=? 500); simpl.
  - unfold traced. simpl. now rewrite <- app_assoc.
  - reflexivity.
Qed.

Lemma flush_release_run (h : serveHandler) (ctx : Context) (wd : World) :
  flush_release h ctx wd =
    (tt, given_back unbound_Context
           (traced wd
              ([EvRespond]
               ++ match snd (respond (Res ctx)) with
                  | Some e => [EvError (Some e)]
                  | None => []
                  end
               ++ [EvReset false; EvPut]))).
Proof.
  unfold flush_release, bind, Response_respond, bind, emit, ret. simpl.
  destruct (respond (Res ctx)) as [rs [e|]]; simpl;
    unfold Gear_Error, Context_Reset, pool_Put, bind, emit, ret,
      given_back, traced, unbound_Context; simpl;
    repeat rewrite <- app_assoc; reflexivity.
Qed.

(** The events of one request, by the three ways a request can go: no
    error; an error that [OnError] answers with a record; an error that
    [OnError] answers with nil. *)
Lemma request_run (h : serveHandler) (w : ResponseWriter) (r : Request)
    (wd : World) (ctxc : Context) (errc : option error) (evs : list Event) :
  run_chain h w r wd = ((ctxc, errc), traced (taken wd) evs) ->
  match errc with
  | None =>
      let ctxf := fold_left (fun cx hk => hook_body hk cx) (afterHooks ctxc) ctxc in
      upto_normalize h w r wd = ((ctxc, None), traced (taken wd) evs)
      /\ upto_finish h w r wd
           = ((ctxf, None),
              traced (taken wd) (evs ++ map EvAfterHook (afterHooks ctxc)))
      /\ ServeHTTP h w r wd
           = (tt, given_back unbound_Context
                    (traced (taken wd)
                       (evs ++ map EvAfterHook (afterHooks ctxc)
                            ++ flush_events ctxf)))
      /\ events h w r wd
           = evs ++ map EvAfterHook (afterHooks ctxc) ++ flush_events ctxf
  | Some e =>
      match OnError (app h) ctxc e with
      | (ctxo, Some ce) =>
          let ctxn := set_Res (set_Status (Code ce) (Res ctxo)) ctxo in
          let e' := errors_New (textproto_Error_Error ce) in
          let ctxf :=
            set_afterHooks []
              (set_Res (set_Body (error_Error e') (Res (force_500 ctxn)))
                 (force_500 ctxn)) in
          upto_normalize h w r wd
            = ((ctxn, Some e'),
               traced (taken wd) (evs ++ [EvOnError e; EvStatus (Code ce)]))
          /\ upto_finish h w r wd
               = ((ctxf, Some e'),
                  traced (taken wd)
                    (evs ++ [EvOnError e; EvStatus (Code ce)]
                         ++ error_events ctxn e'))
          /\ ServeHTTP h w r wd
               = (tt, given_back unbound_Context
                        (traced (taken wd)
                           (evs ++ [EvOnError e; EvStatus (Code ce)]
                                ++ error_events ctxn e' ++ flush_events ctxf)))
          /\ events h w r wd
               = evs ++ [EvOnError e; EvStatus (Code ce)]
                     ++ error_events ctxn e' ++ flush_events ctxf
      | (ctxo, None) =>
          let ctxf :=
            set_afterHooks []
              (set_Res (set_Body (error_Error e) (Res (force_500 ctxo)))
                 (force_500 ctxo)) in
          upto_normalize h w r wd
            = ((ctxo, Some e), traced (taken wd) (evs ++ [EvOnError e]))
          /\ upto_finish h w r wd
               = ((ctxf, Some e),
                  traced (taken wd)
                    (evs ++ [EvOnError e] ++ error_events ctxo e))
          /\ ServeHTTP h w r wd
               = (tt, given_back unbound_Context
                        (traced (taken wd)
                           (evs ++ [EvOnError e]
                                ++ error_events ctxo e ++ flush_events ctxf)))
          /\ events h w r wd
               = evs ++ [EvOnError e] ++ error_events ctxo e ++ flush_events ctxf
      end
  end.
Proof.
  intros Hrun.
  unfold events, ServeHTTP, upto_finish, upto_normalize, bind, ret.
  rewrite Hrun.
  destruct errc as [e|].
  - rewrite normalize_Some.
    destruct (OnError (app h) ctxc e) as [ctxo [ce|]]; cbv zeta.
    + rewrite finish_Some, flush_release_run. fold (error_events
        (set_Res (set_Status (Code ce) (Res ctxo)) ctxo)
        (errors_New (textproto_Error_Error ce))).
      match goal with |- context [flush_events ?c] => fold (flush_events c) end.
      rewrite !traced_traced.
      repeat split; try reflexivity.
      * now rewrite <- !app_assoc.
      * now rewrite <- !app_assoc.
      * unfold given_back, traced, taken. cbn [snd trace].
        rewrite <- !app_assoc. apply skipn_length_app.
    + rewrite finish_Some, flush_release_run.
      fold (error_events ctxo e).
      match goal with |- context [flush_events ?c] => fold (flush_events c) end.
      rewrite !traced_traced.
      repeat split; try reflexivity.
      * now rewrite <- !app_assoc.
      * now rewrite <- !app_assoc.
      * unfold given_back, traced, taken. cbn [snd trace].
        rewrite <- !app_assoc. apply skipn_length_app.
  - rewrite normalize_None, finish_None, flush_release_run. cbv zeta.
    match goal with |- context [flush_events ?c] => fold (flush_events c) end.
    rewrite !traced_traced.
    repeat split; try reflexivity.
    + now rewrite <- !app_assoc.
    + unfold given_back, traced, taken. cbn [snd trace].
      rewrite <- !app_assoc. apply skipn_length_app.
Qed.

(** ** What the error and flush events contain *)

Lemma handled_error_events (ctx : Context) (e : error) :
  handled (error_events ctx e) = [].
Proof. unfold error_events. now destruct (_ >=? _). Qed.

Lemma handled_flush_events (ctx : Context) : handled (flush_events ctx) = [].
Proof. unfold flush_events. now destruct (snd _). Qed.

Lemma hooks_run_error_events (ctx : Context) (e : error) :
  hooks_run (error_events ctx e) = [].
Proof. unfold error_events. now destruct (_ >=? _). Qed.

Lemma hooks_run_flush_events (ctx : Context) : hooks_run (flush_events ctx) = [].
Proof. unfold flush_events. now destruct (snd _). Qed.

Lemma bodies_written_error_events (ctx : Context) (e : error) :
  bodies_written (error_events ctx e) = [error_Error e].
Proof. unfold error_events. now destruct (_ >=? _). Qed.

Lemma bodies_written_flush_events (ctx : Context) :
  bodies_written (flush_events ctx) = [].
Proof. unfold flush_events. now destruct (snd _). Qed.

Lemma statuses_set_error_events (ctx : Context) (e : error) :
  statuses_set (error_events ctx e) = [].
Proof. unfold error_events. now destruct (_ >=? _). Qed.

Lemma statuses_set_flush_events (ctx : Context) :
  statuses_set (flush_events ctx) = [].
Proof. unfold flush_events. now destruct (snd _). Qed.

Lemma errors_normalized_error_events (ctx : Context) (e : error) :
  errors_normalized (error_events ctx e) = [].
Proof. unfold error_events. now destruct (_ >=? _). Qed.

Lemma errors_normalized_flush_events (ctx : Context) :
  errors_normalized (flush_events ctx) = [].
Proof. unfold flush_events. now destruct (snd _). Qed.

Lemma acquisitions_error_events (ctx : Context) (e : error) :
  acquisitions (error_events ctx e) = 0%nat.
Proof. unfold error_events. now destruct (_ >=? _). Qed.

Lemma acquisitions_flush_events (ctx : Context) :
  acquisitions (flush_events ctx) = 0%nat.
Proof. unfold flush_events. now destruct (snd _). Qed.

Lemma releases_error_events (ctx : Context) (e : error) :
  releases (error_events ctx e) = 0%nat.
Proof. unfold error_events. now destruct (_ >=? _). Qed.

Lemma releases_flush_events (ctx : Context) :
  releases (flush_events ctx) = 1%nat.
Proof. unfold flush_events. now destruct (snd _). Qed.

Lemma last_flush_events (ctx : Context) (pre : list Event) :
  last (pre ++ flush_events ctx) EvGet = EvPut.
Proof.
  unfold flush_events.
  rewrite !app_assoc.
  change [EvReset false; EvPut] with ([EvReset false] ++ [EvPut]).
  rewrite app_assoc. apply last_last.
Qed.

Lemma force_500_Status (ctx : Context) :
  Status (Res (force_500 ctx))
    = if Status (Res ctx) <? 400 then 500 else Status (Res ctx).
Proof. unfold force_500. now destruct (Status (Res ctx) <? 400). Qed.

Create Rewrite HintDb trace_db.

#[local] Hint Rewrite
  @handled_app @hooks_run_app @bodies_written_app @statuses_set_app
  @errors_normalized_app @acquisitions_app @releases_app
  @handled_EvHandle @hooks_run_EvHandle @bodies_written_EvHandle
  @statuses_set_EvHandle @errors_normalized_EvHandle
  @acquisitions_EvHandle @releases_EvHandle
  @hooks_run_EvAfterHook @handled_EvAfterHook @bodies_written_EvAfterHook
  @statuses_set_EvAfterHook @errors_normalized_EvAfterHook
  @acquisitions_EvAfterHook @releases_EvAfterHook
  @handled_error_events @handled_flush_events
  @hooks_run_error_events @hooks_run_flush_events
  @bodies_written_error_events @bodies_written_flush_events
  @statuses_set_error_events @statuses_set_flush_events
  @errors_normalized_error_events @errors_normalized_flush_events
  @acquisitions_error_events @acquisitions_flush_events
  @releases_error_events @releases_flush_events : trace_db.

(** Evaluate the readers of a trace on the events of a request. *)
Ltac read_trace :=
  autorewrite with trace_db; simpl; autorewrite with trace_db; simpl;
  rewrite ?app_nil_r.

(** Open one request: the loop's result and the equations of the steps
    that follow it. *)
Ltac open_request h w r wd :=
  let k := fresh "k" in
  let ctx1 := fresh "ctx1" in
  let err1 := fresh "err1" in
  destruct (run_chain_run h w r wd)
    as (k & ctx1 & err1 & Hrun & Hloop & Hle & Hpos & Hbefore & Hlast
        & Herr & Hflag);
  pose proof Hrun as Hreq; apply request_run in Hreq.

(** * The dispatch engine, request by request *)

(** C1: for every chain with at least one unit, [ServeHTTP] invokes the
    units in registration order, indices [0], [1], ..., [k-1]; no invoked
    unit but the last returned an error or left [ended] or [finished]
    set, and when units are left over ([k] below the length of the
    chain) the last invoked unit did: the iteration stops right after
    the first unit that ends it, and no later unit is invoked. *)
Theorem ServeHTTP_registration_order (h : serveHandler) (w : ResponseWriter)
    (r : Request) (wd : World) :
  h_middleware h <> [] ->
  exists k : nat,
    (1 <= k <= List.length (h_middleware h))%nat
    /\ handled (events h w r wd) = seq 0 k
    /\ (forall j handle, (S j < k)%nat ->
          nth_error (h_middleware h) j = Some handle ->
          halts handle (ctx_at (h_middleware h) (bound_Context w r) j) = false)
    /\ (forall handle, (k < List.length (h_middleware h))%nat ->
          nth_error (h_middleware h) (k - 1) = Some handle ->
          halts handle (ctx_at (h_middleware h) (bound_Context w r) (k - 1))
            = true).
Proof.
  intros Hne.
  destruct (run_chain_run h w r wd)
    as (k & ctx1 & err1 & Hrun & _ & Hle & Hpos & Hbefore & Hlast & _ & _).
  exists k.
  split; [split; [now apply Hpos | exact Hle]|].
  split; [|split; [exact Hbefore | exact Hlast]].
  pose proof Hrun as Hreq; apply request_run in Hreq.
  destruct err1 as [e|].
  - destruct (OnError (app h) (set_ended true ctx1) e) as [ctxo [ce|]];
      destruct Hreq as (_ & _ & _ & ->); now read_trace.
  - destruct Hreq as (_ & _ & _ & ->); now read_trace.
Qed.

(** C5: for every request exactly one of two things happens, by the
    working error after normalization.  With no error, every after hook
    queued on the context is run, in queue order, and no error body is
    written.  With an error, its message is written as the body, once,
    no after hook is run, and the queue is cleared. *)
Theorem after_hooks_or_error_body (h : serveHandler) (w : ResponseWriter)
    (r : Request) (wd : World) :
  match snd (fst (upto_normalize h w r wd)) with
  | None =>
      hooks_run (events h w r wd)
        = afterHooks (fst (fst (upto_normalize h w r wd)))
      /\ bodies_written (events h w r wd) = []
  | Some e =>
      bodies_written (events h w r wd) = [error_Error e]
      /\ Body (Res (fst (fst (upto_finish h w r wd)))) = error_Error e
      /\ hooks_run (events h w r wd) = []
      /\ afterHooks (fst (fst (upto_finish h w r wd))) = []
  end.
Proof.
  open_request h w r wd.
  destruct err1 as [e|].
  - destruct (OnError (app h) (set_ended true ctx1) e) as [ctxo [ce|]];
      destruct Hreq as (-> & -> & _ & ->); simpl;
      repeat split; now read_trace.
  - destruct Hreq as (-> & _ & _ & ->); simpl.
    split; now read_trace.
Qed.

(** C6: when the chain ended with an error [E], an error is still
    present after normalization whatever [OnError] answers (it is [E]
    itself when the answer is nil), and the error path runs: the status
    at flush is 500 if the status after normalization was below 400 and
    is that status otherwise, the working error's message is the body,
    written once, no after hook runs and the queue is cleared. *)
Theorem error_path_after_normalization (h : serveHandler) (w : ResponseWriter)
    (r : Request) (wd : World) (E : error) :
  snd (fst (run_chain h w r wd)) = Some E ->
  let ctxc := fst (fst (run_chain h w r wd)) in
  let ctxn := fst (fst (upto_normalize h w r wd)) in
  let ctxf := fst (fst (upto_finish h w r wd)) in
  exists e : error,
    snd (fst (upto_normalize h w r wd)) = Some e
    /\ (snd (OnError (app h) ctxc E) = None -> e = E)
    /\ Status (Res ctxf)
         = (if Status (Res ctxn) <? 400 then 500 else Status (Res ctxn))
    /\ Body (Res ctxf) = error_Error e
    /\ bodies_written (events h w r wd) = [error_Error e]
    /\ hooks_run (events h w r wd) = []
    /\ afterHooks ctxf = [].
Proof.
  open_request h w r wd.
  rewrite Hrun. simpl. intros ->.
  destruct (OnError (app h) (set_ended true ctx1) E) as [ctxo [ce|]];
    destruct Hreq as (-> & -> & _ & ->); simpl.
  - exists (errors_New (textproto_Error_Error ce)).
    split; [reflexivity|]. split; [discriminate|].
    split; [apply (force_500_Status
      (set_Res (set_Status (Code ce) (Res ctxo)) ctxo))|].
    repeat split; now read_trace.
  - exists E.
    split; [reflexivity|]. split; [reflexivity|].
    split; [apply force_500_Status|].
    repeat split; now read_trace.
Qed.

(** C7: every request takes one context from the pool, as its first
    step, and gives one back, as its last, right after [Reset(nil, nil)].
    The context given back is the head of the pool afterwards; it has
    been reset with nil bindings, so its request and its response writer
    are nil, and the next acquisition returns it with these empty
    bindings. *)
Theorem one_context_per_request (h : serveHandler) (w : ResponseWriter)
    (r : Request) (wd : World) :
  let wd' := snd (ServeHTTP h w r wd) in
  trace wd' = trace wd ++ events h w r wd
  /\ acquisitions (events h w r wd) = 1%nat
  /\ releases (events h w r wd) = 1%nat
  /\ hd_error (events h w r wd) = Some EvGet
  /\ last (events h w r wd) EvGet = EvPut
  /\ (exists pre, events h w r wd = pre ++ [EvReset false; EvPut])
  /\ (exists ctx : Context,
        pool wd' = ctx :: tl (pool wd)
        /\ Req ctx = None
        /\ res (Res ctx) = None
        /\ fst (pool_Get (app h) wd') = ctx).
Proof.
  open_request h w r wd.
  assert (Hgoal : forall mid ctxf,
    ServeHTTP h w r wd
      = (tt, given_back unbound_Context
               (traced (taken wd)
                  (([EvGet; EvReset true] ++ map EvHandle (seq 0 k))
                   ++ mid ++ flush_events ctxf))) ->
    events h w r wd
      = ([EvGet; EvReset true] ++ map EvHandle (seq 0 k))
        ++ mid ++ flush_events ctxf ->
    acquisitions mid = 0%nat -> releases mid = 0%nat ->
    let wd' := snd (ServeHTTP h w r wd) in
    trace wd' = trace wd ++ events h w r wd
    /\ acquisitions (events h w r wd) = 1%nat
    /\ releases (events h w r wd) = 1%nat
    /\ hd_error (events h w r wd) = Some EvGet
    /\ last (events h w r wd) EvGet = EvPut
    /\ (exists pre, events h w r wd = pre ++ [EvReset false; EvPut])
    /\ (exists ctx : Context,
          pool wd' = ctx :: tl (pool wd)
          /\ Req ctx = None
          /\ res (Res ctx) = None
          /\ fst (pool_Get (app h) wd') = ctx)).
  { intros mid ctxf Hs He Hacq Hrel. rewrite Hs, He. cbv zeta.
    split; [reflexivity|].
    split; [read_trace; rewrite Hacq; reflexivity|].
    split; [read_trace; rewrite Hrel; reflexivity|].
    split; [reflexivity|].
    split; [rewrite app_assoc; apply last_flush_events|].
    split.
    { exists ((([EvGet; EvReset true] ++ map EvHandle (seq 0 k)) ++ mid)
              ++ [EvRespond]
              ++ match snd (respond (Res ctxf)) with
                 | Some e => [EvError (Some e)]
                 | None => []
                 end).
      unfold flush_events. rewrite <- !app_assoc. reflexivity. }
    exists unbound_Context. repeat split. }
  assert (Hshape : exists mid ctxf,
    ServeHTTP h w r wd
      = (tt, given_back unbound_Context
               (traced (taken wd)
                  (([EvGet; EvReset true] ++ map EvHandle (seq 0 k))
                   ++ mid ++ flush_events ctxf)))
    /\ events h w r wd
        = ([EvGet; EvReset true] ++ map EvHandle (seq 0 k))
          ++ mid ++ flush_events ctxf
    /\ acquisitions mid = 0%nat /\ releases mid = 0%nat).
  { destruct err1 as [e|].
    - destruct (OnError (app h) (set_ended true ctx1) e) as [ctxo [ce|]];
        destruct Hreq as (_ & _ & Hs & He).
      + match type of He with
        | _ = _ ++ ?m1 ++ ?m2 ++ flush_events ?cf => exists (m1 ++ m2), cf
        end.
        rewrite Hs, He, <- !app_assoc. repeat split; now read_trace.
      + match type of He with
        | _ = _ ++ ?m1 ++ ?m2 ++ flush_events ?cf => exists (m1 ++ m2), cf
        end.
        rewrite Hs, He, <- !app_assoc. repeat split; now read_trace.
    - destruct Hreq as (_ & _ & Hs & He).
      match type of He with
      | _ = _ ++ ?m1 ++ flush_events ?cf => exists m1, cf
      end.
      rewrite Hs, He, <- !app_assoc. repeat split; now read_trace. }
  destruct Hshape as (mid & ctxf & Hs & He & Hacq & Hrel).
  exact (Hgoal mid ctxf Hs He Hacq Hrel).
Qed.

(** ** The server front end *)

Lemma NewAppError_text (s : string) : NewAppError s = ("[Gear] " ++ s)%string.
Proof. reflexivity. Qed.

Lemma toServeHandler_empty (g : Gear) :
  middleware g = [] -> toServeHandler g = Panicked (NewAppError "no middleware").
Proof. intros Hm. unfold toServeHandler. now rewrite Hm. Qed.

Lemma toServeHandler_nonempty (g : Gear) :
  middleware g <> [] ->
  toServeHandler g = Returned {| app := g; h_middleware := middleware g |}.
Proof.
  intros Hm. unfold toServeHandler.
  destruct (middleware g); [congruence | reflexivity].
Qed.


(** C3, as the code has it: a chain of one unit that returns the error
    [E], under the default [OnError] of [New].  The body written is the
    text of the record [NewError(E, 500)], that is ["500 "] followed by
    [E.Error()]; the status is 500; no after hook runs. *)
Theorem single_failing_unit_default_OnError (g : Gear) (handle : Middleware)
    (E : error) (w : ResponseWriter) (r : Request) (wd : World) :
  middleware g = [handle] ->
  OnError g = OnError New ->
  snd (handle (bound_Context w r)) = Some E ->
  let h := {| app := g; h_middleware := middleware g |} in
  toServeHandler g = Returned h
  /\ Body (Res (fst (fst (upto_finish h w r wd))))
       = ("500 " ++ error_Error E)%string
  /\ Status (Res (fst (fst (upto_finish h w r wd)))) = 500
  /\ bodies_written (events h w r wd) = [("500 " ++ error_Error E)%string]
  /\ statuses_set (events h w r wd) = [500]
  /\ hooks_run (events h w r wd) = [].
Proof.
  intros Hmw Hon HE h.
  split; [apply toServeHandler_nonempty; rewrite Hmw; discriminate|].
  open_request h w r wd.
  subst h. cbn [app h_middleware] in *. rewrite Hmw in Hloop.
  cbn [range_middleware] in Hloop. unfold bind, emit, ret in Hloop.
  destruct (handle (bound_Context w r)) as [cx oe].
  cbn [snd] in HE. subst oe.
  injection Hloop as <- <-.
  rewrite Hon in Hreq. unfold New in Hreq. cbn [OnError] in Hreq.
  destruct Hreq as (_ & -> & _ & ->).
  cbn [fst snd].
  split; [reflexivity|]. split; [reflexivity|].
  repeat split; now read_trace.
Qed.

(** C4, as the code has it: when the chain ended with the error [E] and
    [OnError] answers the record [ce], the engine calls [ctx.Status]
    with the record's code, which becomes the response status, and the
    working error becomes [errors.New(ctxErr.Error())], whose message is
    the code as [%03d], a space and the record's message; that text is
    the body written afterwards. *)
Theorem OnError_record_normalization (h : serveHandler) (w : ResponseWriter)
    (r : Request) (wd : World) (E : error) (ce : textproto_Error) :
  snd (fst (run_chain h w r wd)) = Some E ->
  snd (OnError (app h) (fst (fst (run_chain h w r wd))) E) = Some ce ->
  let text := (fmt_03d (Code ce) ++ " " ++ Msg ce)%string in
  statuses_set (events h w r wd) = [Code ce]
  /\ Status (Res (fst (fst (upto_normalize h w r wd)))) = Code ce
  /\ snd (fst (upto_normalize h w r wd)) = Some (errors_New text)
  /\ bodies_written (events h w r wd) = [text]
  /\ Body (Res (fst (fst (upto_finish h w r wd)))) = text.
Proof.
  open_request h w r wd.
  rewrite Hrun. simpl. intros -> Hce.
  destruct (OnError (app h) (set_ended true ctx1) E) as [ctxo oce].
  simpl in Hce. subst oce.
  destruct Hreq as (-> & -> & _ & ->). simpl.
  repeat split; now read_trace.
Qed.

(** The adapters only write to the response: the loop over a chain of
    wrapped handlers leaves [ended] as it found it. *)
Lemma range_wrapped_ended (ms : list Middleware) :
  Forall wrapped ms ->
  forall (i : nat) (ctx : Context) (wd : World),
    ended (fst (fst (range_middleware ms i ctx wd))) = ended ctx.
Proof.
  induction 1 as [|handle rest Hw _ IH]; intros i ctx wd; [reflexivity|].
  simpl. unfold bind, emit. simpl.
  assert (Hh : exists rs, handle ctx = (set_Res rs ctx, None)).
  { destruct Hw as [(H & HH & hd & ->) | (f & ->)]; eexists; reflexivity. }
  destruct Hh as (rs & ->).
  destruct (ended (set_Res rs ctx) || finished (Res (set_Res rs ctx)));
    [reflexivity|].
  now rewrite IH.
Qed.

(** C10: the units made by [WrapHandler] and [WrapHandlerFunc] return
    nil on every context.  So a chain of wrapped handlers ends without
    error: [OnError] is not called, no error body is written, the after
    hooks run; and when it stops before its last unit, it is because the
    response is finished. *)
Theorem wrapped_handlers_return_nil :
  (forall (H : Type) (HH : http_Handler H) (hd : H) (ctx : Context),
     snd (WrapHandler hd ctx) = None)
  /\ (forall (f : http_HandlerFunc) (ctx : Context),
        snd (WrapHandlerFunc f ctx) = None)
  /\ (forall (h : serveHandler) (w : ResponseWriter) (r : Request)
        (wd : World),
        Forall wrapped (h_middleware h) ->
        snd (fst (run_chain h w r wd)) = None
        /\ errors_normalized (events h w r wd) = []
        /\ bodies_written (events h w r wd) = []
        /\ hooks_run (events h w r wd)
             = afterHooks (fst (fst (run_chain h w r wd)))
        /\ ((List.length (handled (events h w r wd))
               < List.length (h_middleware h))%nat ->
            finished (Res (fst (fst (run_chain h w r wd)))) = true)).
Proof.
  split; [reflexivity|]. split; [reflexivity|].
  intros h w r wd Hall.
  open_request h w r wd.
  assert (Hnil : err1 = None).
  { destruct err1 as [e|]; [|reflexivity].
    destruct (Herr e eq_refl) as (handle & cx & Hin & He).
    rewrite Forall_forall in Hall.
    destruct (Hall handle Hin) as [(H & HH & hd & ->) | (f & ->)];
      discriminate He. }
  subst err1.
  pose proof (range_wrapped_ended Hall 0
                (bound_Context w r) (traced (taken wd) [EvGet; EvReset true]))
    as Hended.
  rewrite Hloop in Hended. simpl in Hended.
  destruct Hreq as (_ & _ & _ & ->). rewrite Hrun. simpl.
  split; [reflexivity|].
  repeat split; try now read_trace.
  read_trace. rewrite length_seq. intros Hk.
  specialize (Hflag Hk eq_refl). rewrite Hended in Hflag. exact Hflag.
Qed.

(** C8: with an empty chain [Listen], [ListenTLS] and [Start] each panic
    with the app error ["[Gear] no middleware"] and serve nothing.  With
    a unit registered, [Listen] and [ListenTLS] return what the server
    returns, and [Start] panics only when [net.Listen] fails, with
    another error. *)
Theorem empty_chain_panics (g : Gear) (srv : http_Server)
    (addr certFile keyFile : string) (addrs : list string) :
  (middleware g = [] ->
     Listen g srv addr = Panicked (NewAppError "no middleware")
     /\ ListenTLS g srv addr certFile keyFile
          = Panicked (NewAppError "no middleware")
     /\ Start g srv addrs = Panicked (NewAppError "no middleware"))
  /\ (middleware g <> [] ->
        (exists out, Listen g srv addr = Returned out)
        /\ (exists out, ListenTLS g srv addr certFile keyFile = Returned out)
        /\ (forall e, Start g srv addrs = Panicked e ->
              e <> NewAppError "no middleware"
              /\ exists err, net_Listen "tcp" (Start_laddr addrs) = inr err)).
Proof.
  split.
  - intros Hm. unfold Listen, ListenTLS, Start.
    rewrite (toServeHandler_empty g Hm). repeat split.
  - intros Hm. unfold Listen, ListenTLS, Start.
    rewrite (toServeHandler_nonempty g Hm).
    split; [eexists; reflexivity|]. split; [eexists; reflexivity|].
    intros e. destruct (net_Listen "tcp" (Start_laddr addrs)) as [ln|err].
    + discriminate.
    + intros He. injection He as <-. split; [|now exists err].
      rewrite !NewAppError_text. simpl. discriminate.
Qed.

(** C9: [Start] listens on ["127.0.0.1:0"] when no address is given or
    the first one is empty, and on the first address otherwise.  Once
    the handler is made, a failure of [net.Listen] makes [Start] panic;
    a success makes it return the handle of the listener, whose [Addr]
    and [Close] are the listener's and whose [Wait] yields what
    [Server.Serve] on that listener returns. *)
Theorem Start_binds_or_panics (g : Gear) (srv : http_Server)
    (addrs : list string) (h : serveHandler) :
  toServeHandler g = Returned h ->
  Start_laddr [] = "127.0.0.1:0"
  /\ (forall rest, Start_laddr ("" :: rest) = "127.0.0.1:0")
  /\ (forall a rest, a <> "" -> Start_laddr (a :: rest) = a)
  /\ Start g srv [] = Start g srv ["127.0.0.1:0"]
  /\ match net_Listen "tcp" (Start_laddr addrs) with
     | inr err =>
         Start g srv addrs
           = Panicked (NewAppError
               ("failed to listen on " ++ Start_laddr addrs ++ ": "
                ++ error_Error err))
     | inl ln =>
         exists srv' s,
           Start g srv addrs = Returned (srv', s)
           /\ Server_Handler srv' = Some h
           /\ l s = ln
           /\ ServerListener_Addr s = Listener_Addr ln
           /\ ServerListener_Close s = Listener_Close ln
           /\ ServerListener_Wait s = Server_Serve srv' ln
     end.
Proof.
  intros Hh.
  split; [reflexivity|]. split; [reflexivity|].
  split.
  { intros a rest Ha. simpl. destruct (String.eqb_spec a ""); congruence. }
  split; [reflexivity|].
  unfold Start. rewrite Hh.
  destruct (net_Listen "tcp" (Start_laddr addrs)) as [ln|err].
  - eexists; eexists. split; [reflexivity|].
    unfold attach_ErrorLog. destruct (ErrorLog g); simpl; repeat split.
  - reflexivity.
Qed.



(** * More of [app.go] *)

(** ** Registration *)

Lemma fold_Use (ms : list Middleware) :
  forall g : Gear,
    middleware (fold_left Use ms g) = middleware g ++ ms
    /\ OnError (fold_left Use ms g) = OnError g
    /\ ErrorLog (fold_left Use ms g) = ErrorLog g.
Proof.
  induction ms as [|handle rest IH]; intros g; simpl.
  - now rewrite app_nil_r.
  - destruct (IH (Use g handle)) as (Hm & Ho & He).
    rewrite Hm, Ho, He. simpl. now rewrite <- app_assoc.
Qed.

(** X1: after [Use] of the units [handle], [ms...] in turn, the handler
    made by [toServeHandler] does not panic, and its chain is the units
    the app had followed by the new ones in the order of the calls;
    [Use] changes neither [OnError] nor [ErrorLog]. *)
Theorem Use_registers_in_order (g : Gear) (handle : Middleware)
    (ms : list Middleware) :
  let g' := fold_left Use (handle :: ms) g in
  toServeHandler g'
    = Returned {| app := g'; h_middleware := middleware g ++ handle :: ms |}
  /\ OnError g' = OnError g
  /\ ErrorLog g' = ErrorLog g.
Proof.
  intros g'.
  destruct (fold_Use (handle :: ms) g) as (Hm & Ho & He).
  fold g' in Hm, Ho, He.
  split; [|split; assumption].
  rewrite toServeHandler_nonempty.
  - now rewrite Hm.
  - rewrite Hm. destruct (middleware g); discriminate.
Qed.

(** ** What [ServeHTTP] reports and writes *)

Lemma errors_reported_app (a b : list Event) :
  errors_reported (a ++ b) = errors_reported a ++ errors_reported b.
Proof. apply flat_map_app. Qed.

Lemma errors_reported_EvHandle (ixs : list nat) :
  errors_reported (map EvHandle ixs) = [].
Proof. induction ixs as [|i ixs IH]; simpl; auto. Qed.

Lemma errors_reported_EvAfterHook (hs : list Hook) :
  errors_reported (map EvAfterHook hs) = [].
Proof. induction hs as [|hk hs IH]; simpl; auto. Qed.

Lemma errors_reported_error_events (ctx : Context) (e : error) :
  errors_reported (error_events ctx e)
    = if Status (Res (force_500 ctx)) >=? 500 then [Some e] else [].
Proof. unfold error_events. now destruct (_ >=? _). Qed.

Lemma errors_reported_flush_events (ctx : Context) :
  errors_reported (flush_events ctx)
    = match snd (respond (Res ctx)) with
      | Some e => [Some e]
      | None => []
      end.
Proof. unfold flush_events. now destruct (snd _). Qed.

(** X2: [h.app.Error] is called with the working error exactly when the
    request ended in error with a status of 500 or more at flush, and
    then with the flush error exactly when [respond] failed, in this
    order; it is never called otherwise, and never with nil. *)
Theorem errors_reported_by_request (h : serveHandler) (w : ResponseWriter)
    (r : Request) (wd : World) :
  let ctxf := fst (fst (upto_finish h w r wd)) in
  errors_reported (events h w r wd)
    = match snd (fst (upto_finish h w r wd)) with
      | Some e => if Status (Res ctxf) >=? 500 then [Some e] else []
      | None => []
      end
      ++ match snd (respond (Res ctxf)) with
         | Some e => [Some e]
         | None => []
         end.
Proof.
  open_request h w r wd.
  destruct err1 as [e|].
  - destruct (OnError (app h) (set_ended true ctx1) e) as [ctxo [ce|]];
      destruct Hreq as (_ & -> & _ & ->); cbn [fst snd];
      rewrite !errors_reported_app, errors_reported_EvHandle,
        errors_reported_error_events, errors_reported_flush_events;
      reflexivity.
  - destruct Hreq as (_ & -> & _ & ->); cbn [fst snd].
    rewrite !errors_reported_app, errors_reported_EvHandle,
      errors_reported_EvAfterHook, errors_reported_flush_events.
    reflexivity.
Qed.

(** X4: when the chain ended with an error and [OnError] answers a
    record, the status at flush is the record's code if it is 400 or
    more, and 500 if it is below 400. *)
Theorem final_status_of_OnError_code (h : serveHandler) (w : ResponseWriter)
    (r : Request) (wd : World) (E : error) (ce : textproto_Error) :
  snd (fst (run_chain h w r wd)) = Some E ->
  snd (OnError (app h) (fst (fst (run_chain h w r wd))) E) = Some ce ->
  Status (Res (fst (fst (upto_finish h w r wd))))
    = if Code ce <? 400 then 500 else Code ce.
Proof.
  open_request h w r wd.
  rewrite Hrun. cbn [fst snd]. intros -> Hce.
  destruct (OnError (app h) (set_ended true ctx1) E) as [ctxo oce].
  cbn [snd] in Hce. subst oce.
  destruct Hreq as (_ & -> & _ & _). cbn [fst snd].
  apply (force_500_Status (set_Res (set_Status (Code ce) (Res ctxo)) ctxo)).
Qed.

(** X5: when the chain ends without error the engine leaves the response
    to the units and the hooks: it calls neither [OnError] nor
    [ctx.Status] nor [ctx.String], and the context it flushes is the one
    the chain left, with [ended] set, after the queued hooks ran on it
    in order. *)
Theorem success_path_keeps_response (h : serveHandler) (w : ResponseWriter)
    (r : Request) (wd : World) :
  snd (fst (run_chain h w r wd)) = None ->
  let ctxc := fst (fst (run_chain h w r wd)) in
  snd (fst (upto_finish h w r wd)) = None
  /\ fst (fst (upto_finish h w r wd))
       = fold_left (fun cx hk => hook_body hk cx) (afterHooks ctxc) ctxc
  /\ ended ctxc = true
  /\ errors_normalized (events h w r wd) = []
  /\ statuses_set (events h w r wd) = []
  /\ bodies_written (events h w r wd) = [].
Proof.
  open_request h w r wd.
  rewrite Hrun. cbn [fst snd]. intros ->.
  destruct Hreq as (_ & -> & _ & ->). cbn [fst snd].
  split; [reflexivity|]. split; [reflexivity|]. split; [reflexivity|].
  repeat split; now read_trace.
Qed.

(** X6: [OnError] is called once per request whose chain ended with an
    error, with that error as the unit returned it, and not at all
    otherwise; the context it is given has [ended] set. *)
Theorem OnError_called_with_unit_error (h : serveHandler)
    (w : ResponseWriter) (r : Request) (wd : World) :
  errors_normalized (events h w r wd)
    = match snd (fst (run_chain h w r wd)) with
      | Some e => [e]
      | None => []
      end
  /\ ended (fst (fst (run_chain h w r wd))) = true.
Proof.
  open_request h w r wd.
  rewrite Hrun. cbn [fst snd]. split; [|reflexivity].
  destruct err1 as [e|].
  - destruct (OnError (app h) (set_ended true ctx1) e) as [ctxo [ce|]];
      destruct Hreq as (_ & _ & _ & ->); now read_trace.
  - destruct Hreq as (_ & _ & _ & ->); now read_trace.
Qed.

(** ** How the chain threads the context *)

Lemma range_middleware_flow (ms : list Middleware) :
  forall (i : nat) (ctx : Context) (wd : World),
  exists k : nat,
    range_middleware ms i ctx wd
      = ((ctx_at ms ctx k,
          match k with
          | O => None
          | S k' =>
              match nth_error ms k' with
              | Some handle => snd (handle (ctx_at ms ctx k'))
              | None => None
              end
          end),
         traced wd (map EvHandle (seq i k)))
    /\ (k <= List.length ms)%nat.
Proof.
  induction ms as [|handle rest IH]; intros i ctx wd.
  - exists 0%nat. simpl. rewrite traced_nil. split; [reflexivity | lia].
  - simpl. unfold bind, emit. simpl.
    destruct (handle ctx) as [ctx1 [e|]] eqn:Hh.
    + exists 1%nat. unfold ret, ctx_at. simpl. rewrite Hh.
      split; [reflexivity | lia].
    + destruct (ended ctx1 || finished (Res ctx1)) eqn:Hstop.
      * exists 1%nat. unfold ret, ctx_at. simpl. rewrite Hh.
        split; [reflexivity | lia].
      * destruct (IH (S i) ctx1 (traced wd [EvHandle i])) as (k & Hrun & Hle).
        exists (S k). unfold traced in Hrun. simpl in Hrun. rewrite Hrun.
        split; [|simpl; lia].
        rewrite ctx_at_cons, Hh. cbn [fst].
        unfold traced. simpl. rewrite <- app_assoc. simpl.
        destruct k as [|k'].
        -- cbn [nth_error].
           change (ctx_at (handle :: rest) ctx 0) with ctx.
           rewrite Hh. reflexivity.
        -- rewrite ctx_at_cons, Hh. reflexivity.
Qed.

(** X7: the units invoked are the first [k] of the chain, each given the
    context as the units before it left it; the context after the loop
    is what the [k] invoked units made of the bound context, with
    [ended] set, and the chain's error is what the last invoked unit
    returned. *)
Theorem chain_threads_context (h : serveHandler) (w : ResponseWriter)
    (r : Request) (wd : World) :
  exists k : nat,
    (k <= List.length (h_middleware h))%nat
    /\ handled (events h w r wd) = seq 0 k
    /\ fst (fst (run_chain h w r wd))
         = set_ended true (ctx_at (h_middleware h) (bound_Context w r) k)
    /\ (k = 0%nat -> snd (fst (run_chain h w r wd)) = None)
    /\ (forall handle, (1 <= k)%nat ->
          nth_error (h_middleware h) (k - 1) = Some handle ->
          snd (fst (run_chain h w r wd))
            = snd (handle
                     (ctx_at (h_middleware h) (bound_Context w r) (k - 1)))).
Proof.
  destruct (range_middleware_flow (h_middleware h) 0 (bound_Context w r)
              (traced (taken wd) [EvGet; EvReset true])) as (k & Hloop & Hle).
  rewrite traced_traced in Hloop.
  assert (Hrun : run_chain h w r wd
    = ((set_ended true (ctx_at (h_middleware h) (bound_Context w r) k),
        match k with
        | O => None
        | S k' =>
            match nth_error (h_middleware h) k' with
            | Some handle =>
                snd (handle (ctx_at (h_middleware h) (bound_Context w r) k'))
            | None => None
            end
        end),
       traced (taken wd) ([EvGet; EvReset true] ++ map EvHandle (seq 0 k)))).
  { unfold run_chain, bind, pool_Get, Context_Reset, emit, ret, bind.
    destruct wd as [[|c0 free] sk tr];
      unfold taken, traced, bound_Context in *; simpl in *;
      rewrite <- app_assoc; simpl; rewrite Hloop; reflexivity. }
  exists k. split; [exact Hle|].
  pose proof Hrun as Hreq. apply request_run in Hreq.
  rewrite Hrun. cbn [fst snd].
  split.
  { destruct k as [|k'].
    - destruct Hreq as (_ & _ & _ & ->). now read_trace.
    - destruct (nth_error (h_middleware h) k') as [handle|].
      + destruct (snd (handle _)) as [e|].
        * destruct (OnError (app h) _ e) as [ctxo [ce|]];
            destruct Hreq as (_ & _ & _ & ->); now read_trace.
        * destruct Hreq as (_ & _ & _ & ->). now read_trace.
      + destruct Hreq as (_ & _ & _ & ->). now read_trace. }
  split; [reflexivity|].
  split; [intros ->; reflexivity|].
  intros handle Hk Hn. destruct k as [|k']; [lia|].
  replace (S k' - 1)%nat with k' in * by lia. now rewrite Hn.
Qed.

(** ** The flush *)

Lemma flushes_app (a b : list Event) :
  flushes (a ++ b) = (flushes a + flushes b)%nat.
Proof. unfold flushes. now rewrite filter_app, length_app. Qed.

Lemma flushes_EvHandle (ixs : list nat) : flushes (map EvHandle ixs) = 0%nat.
Proof. induction ixs as [|i ixs IH]; simpl; auto. Qed.

Lemma flushes_EvAfterHook (hs : list Hook) :
  flushes (map EvAfterHook hs) = 0%nat.
Proof. induction hs as [|hk hs IH]; simpl; auto. Qed.

Lemma flushes_error_events (ctx : Context) (e : error) :
  flushes (error_events ctx e) = 0%nat.
Proof. unfold error_events. now destruct (_ >=? _). Qed.

(** What follows [ctx.Res.respond()] in a request. *)
Lemma after_respond (o : option error) :
  let post := match o with Some e => [EvError (Some e)] | None => [] end
              ++ [EvReset false; EvPut] in
  flushes post = 0%nat
  /\ handled post = []
  /\ hooks_run post = []
  /\ bodies_written post = []
  /\ statuses_set post = []
  /\ errors_normalized post = [].
Proof. destruct o; repeat split. Qed.

(** X8: every request flushes the response exactly once, and after the
    flush no unit is invoked, no hook runs and neither [ctx.Status] nor
    [ctx.String] nor [OnError] is called: whatever the engine writes, it
    writes before the flush. *)
Theorem flushed_once_after_all_writes (h : serveHandler) (w : ResponseWriter)
    (r : Request) (wd : World) :
  exists pre post : list Event,
    events h w r wd = pre ++ EvRespond :: post
    /\ flushes pre = 0%nat
    /\ flushes post = 0%nat
    /\ handled post = []
    /\ hooks_run post = []
    /\ bodies_written post = []
    /\ statuses_set post = []
    /\ errors_normalized post = [].
Proof.
  open_request h w r wd.
  assert (Hshape : exists mid ctxf,
    events h w r wd
      = (([EvGet; EvReset true] ++ map EvHandle (seq 0 k)) ++ mid)
        ++ flush_events ctxf
    /\ flushes mid = 0%nat).
  { destruct err1 as [e|].
    - destruct (OnError (app h) (set_ended true ctx1) e) as [ctxo [ce|]];
        destruct Hreq as (_ & _ & _ & He).
      + match type of He with
        | _ = _ ++ ?m1 ++ ?m2 ++ flush_events ?cf => exists (m1 ++ m2), cf
        end.
        rewrite He, <- !app_assoc. split; [reflexivity|].
        rewrite flushes_app, flushes_error_events. reflexivity.
      + match type of He with
        | _ = _ ++ ?m1 ++ ?m2 ++ flush_events ?cf => exists (m1 ++ m2), cf
        end.
        rewrite He, <- !app_assoc. split; [reflexivity|].
        rewrite flushes_app, flushes_error_events. reflexivity.
    - destruct Hreq as (_ & _ & _ & He).
      match type of He with
      | _ = _ ++ ?m1 ++ flush_events ?cf => exists m1, cf
      end.
      rewrite He, <- !app_assoc. split; [reflexivity|].
      apply flushes_EvAfterHook. }
  destruct Hshape as (mid & ctxf & He & Hmid).
  exists (([EvGet; EvReset true] ++ map EvHandle (seq 0 k)) ++ mid).
  exists (match snd (respond (Res ctxf)) with
          | Some e => [EvError (Some e)]
          | None => []
          end ++ [EvReset false; EvPut]).
  split; [exact He|].
  split.
  { rewrite !flushes_app, flushes_EvHandle, Hmid. reflexivity. }
  apply after_respond.
Qed.

(** ** The server front end, once more *)

(** X9: [Start] reads only the first of its addresses, and on success
    it leaves the server's [Addr] as it was; the server's [ErrorLog] is
    the app's when the app has one and is left alone otherwise. *)
Theorem Start_uses_first_address (g : Gear) (srv : http_Server)
    (a : string) (rest : list string) :
  Start g srv (a :: rest) = Start g srv [a]
  /\ (forall srv' s, Start g srv (a :: rest) = Returned (srv', s) ->
        Addr srv' = Addr srv
        /\ Server_ErrorLog srv'
             = match ErrorLog g with
               | Some lg => Some lg
               | None => Server_ErrorLog srv
               end).
Proof.
  split; [reflexivity|].
  intros srv' s. unfold Start.
  destruct (toServeHandler g) as [hd|e]; [|discriminate].
  destruct (net_Listen "tcp" (Start_laddr (a :: rest))) as [ln|err];
    [|discriminate].
  intros Hs. injection Hs as <- _.
  unfold attach_ErrorLog. destruct (ErrorLog g); split; reflexivity.
Qed.

(** X10: with a unit registered, [Listen] and [ListenTLS] return what
    [ListenAndServe] and [ListenAndServeTLS] return on the server set to
    the address, to the handler of the whole chain and to the app's
    [ErrorLog] when it has one (the server's own is kept otherwise). *)
Theorem Listen_serves_configured_server (g : Gear) (srv : http_Server)
    (addr certFile keyFile : string) :
  middleware g <> [] ->
  let srv' :=
    {| Addr := addr;
       Server_Handler := Some {| app := g; h_middleware := middleware g |};
       Server_ErrorLog := match ErrorLog g with
                          | Some lg => Some lg
                          | None => Server_ErrorLog srv
                          end |} in
  Listen g srv addr = Returned (srv', ListenAndServe srv')
  /\ ListenTLS g srv addr certFile keyFile
       = Returned (srv', ListenAndServeTLS srv' certFile keyFile).
Proof.
  intros Hm srv'. unfold Listen, ListenTLS.
  rewrite (toServeHandler_nonempty g Hm).
  assert (Hs : attach_ErrorLog g
                 (set_Handler {| app := g; h_middleware := middleware g |}
                    (set_Addr addr srv)) = srv').
  { unfold attach_ErrorLog, srv'. destruct (ErrorLog g); reflexivity. }
  rewrite Hs. split; reflexivity.
Qed.

(** ** Wrapped handlers, once more *)

Lemma range_wrapped_frame (ms : list Middleware) :
  Forall wrapped ms ->
  forall (i : nat) (ctx : Context) (wd : World),
    afterHooks (fst (fst (range_middleware ms i ctx wd))) = afterHooks ctx
    /\ Req (fst (fst (range_middleware ms i ctx wd))) = Req ctx.
Proof.
  induction 1 as [|handle rest Hw _ IH]; intros i ctx wd;
    [split; reflexivity|].
  simpl. unfold bind, emit. simpl.
  assert (Hh : exists rs, handle ctx = (set_Res rs ctx, None)).
  { destruct Hw as [(H & HH & hd & ->) | (f & ->)]; eexists; reflexivity. }
  destruct Hh as (rs & ->).
  destruct (ended (set_Res rs ctx) || finished (Res (set_Res rs ctx)));
    [split; reflexivity|].
  destruct (IH (S i) (set_Res rs ctx)
              {| pool := pool wd; sink := sink wd;
                 trace := trace wd ++ [EvHandle i] |}) as (Ha & Hr).
  rewrite Ha, Hr. split; reflexivity.
Qed.

(** X11: a chain made only of wrapped handlers queues no after hook and
    keeps the request binding: no hook runs in the request, and the
    context after the chain still holds the request it was bound to. *)
Theorem wrapped_chain_queues_no_hook (h : serveHandler) (w : ResponseWriter)
    (r : Request) (wd : World) :
  Forall wrapped (h_middleware h) ->
  hooks_run (events h w r wd) = []
  /\ afterHooks (fst (fst (run_chain h w r wd))) = []
  /\ Req (fst (fst (run_chain h w r wd))) = Some r.
Proof.
  intros Hall.
  open_request h w r wd.
  destruct (range_wrapped_frame Hall 0 (bound_Context w r)
              (traced (taken wd) [EvGet; EvReset true])) as (Ha & Hr).
  rewrite Hloop in Ha, Hr. cbn [fst] in Ha, Hr.
  assert (Hnil : err1 = None).
  { destruct err1 as [e|]; [|reflexivity].
    destruct (Herr e eq_refl) as (handle & cx & Hin & He).
    rewrite Forall_forall in Hall.
    destruct (Hall handle Hin) as [(H & HH & hd & ->) | (f & ->)];
      discriminate He. }
  subst err1.
  destruct Hreq as (_ & _ & _ & ->). rewrite Hrun. cbn [fst snd].
  split; [|split; [exact Ha | exact Hr]].
  read_trace. cbn [afterHooks set_ended]. rewrite Ha. reflexivity.
Qed.


End Properties.

(** * Runs on the concrete transport *)

#[local] Existing Instance Fixture.transport.
#[local] Existing Instance Fixture.collaborators.

(** [%03d] on some codes. *)
Example fmt_03d_500 : fmt_03d 500 = "500".
Proof. reflexivity. Qed.

Example fmt_03d_7 : fmt_03d 7 = "007".
Proof. reflexivity. Qed.

Example fmt_03d_neg : fmt_03d (-5) = "-05".
Proof. reflexivity. Qed.

Example fmt_03d_wide : fmt_03d 12345 = "12345".
Proof. reflexivity. Qed.

Example fmt_03d_zero : fmt_03d 0 = "000".
Proof. reflexivity. Qed.

(** The app of [New] with one unit that returns ["boom"]. *)
Example boom_trace :
  events (Fixture.handler_of (Fixture.app_of [Fixture.unit_boom]))
    1%nat "/" Fixture.world0
  = [EvGet; EvReset true; EvHandle 0; EvOnError "boom"; EvStatus 500;
     EvError (Some "500 boom"); EvString "500 boom"; EvRespond;
     EvReset false; EvPut].
Proof. reflexivity. Qed.

(** A unit queues a hook, the next ends the request, the third is never
    invoked, and the hook runs. *)
Example end_trace :
  events
    (Fixture.handler_of
       (Fixture.app_of [Fixture.unit_after; Fixture.unit_end; Fixture.unit_boom]))
    1%nat "/" Fixture.world0
  = [EvGet; EvReset true; EvHandle 0; EvHandle 1; EvAfterHook 7%nat;
     EvRespond; EvReset false; EvPut].
Proof. reflexivity. Qed.

(** C2: the unit returns the error ["boom"], the default [OnError] makes
    the status 500, and [ServeHTTP] calls [h.app.Error] with the working
    error; but [Gear.Error] prints only when [err == nil], so the sinks
    receive nothing. *)
Theorem Gear_Error_drops_server_error :
  let h := Fixture.handler_of (Fixture.app_of [Fixture.unit_boom]) in
  Status (Res (fst (fst (upto_finish h 1%nat "/" Fixture.world0)))) = 500
  /\ errors_reported (events h 1%nat "/" Fixture.world0)
       = [Some (errors_New "500 boom")]
  /\ sink (snd (ServeHTTP h 1%nat "/" Fixture.world0)) = [].
Proof. repeat split. Qed.

(** C3, as stated, fails on the app of [New] with one unit that returns
    ["boom"]: the body is ["500 boom"], not ["boom"]. *)
Lemma body_is_not_the_bare_message :
  let h := Fixture.handler_of (Fixture.app_of [Fixture.unit_boom]) in
  ~ (Body (Res (fst (fst (upto_finish h 1%nat "/" Fixture.world0))))
       = error_Error (errors_New "boom")
     /\ Status (Res (fst (fst (upto_finish h 1%nat "/" Fixture.world0)))) = 500
     /\ hooks_run (events h 1%nat "/" Fixture.world0) = []).
Proof. intros h [Hbody _]. vm_compute in Hbody. discriminate Hbody. Qed.

(** C4, as stated, fails when [OnError] answers the record of message
    ["missing"] and code 404: the working error's message is
    ["404 missing"], and so is the body. *)
Lemma working_error_is_not_the_bare_message :
  let ce := {| Code := 404; Msg := "missing" |} in
  let h := Fixture.handler_of
             (Fixture.app_on (Fixture.OnError_const ce) [Fixture.unit_boom]) in
  snd (fst (run_chain h 1%nat "/" Fixture.world0)) = Some (errors_New "boom")
  /\ snd (OnError (app h) (fst (fst (run_chain h 1%nat "/" Fixture.world0)))
            (errors_New "boom")) = Some ce
  /\ ~ (Status (Res (fst (fst (upto_normalize h 1%nat "/" Fixture.world0))))
          = Code ce
        /\ snd (fst (upto_normalize h 1%nat "/" Fixture.world0))
             = Some (errors_New (Msg ce))
        /\ bodies_written (events h 1%nat "/" Fixture.world0) = [Msg ce]).
Proof.
  intros ce h. split; [reflexivity|]. split; [reflexivity|].
  intros (_ & Herr & _). vm_compute in Herr. discriminate Herr.
Qed.

(** * Witnesses: the theorems at concrete inputs *)

Lemma ServeHTTP_registration_order_witness :
  let h := Fixture.handler_of
             (Fixture.app_of
                [Fixture.unit_after; Fixture.unit_end; Fixture.unit_boom]) in
  h_middleware h <> []
  /\ exists k : nat,
       (1 <= k <= List.length (h_middleware h))%nat
       /\ handled (events h 1%nat "/" Fixture.world0) = seq 0 k
       /\ (forall j handle, (S j < k)%nat ->
             nth_error (h_middleware h) j = Some handle ->
             halts handle
               (ctx_at (h_middleware h) (bound_Context 1%nat "/") j) = false)
       /\ (forall handle, (k < List.length (h_middleware h))%nat ->
             nth_error (h_middleware h) (k - 1) = Some handle ->
             halts handle
               (ctx_at (h_middleware h) (bound_Context 1%nat "/") (k - 1))
               = true).
Proof.
  intros h. split; [discriminate|].
  apply (@ServeHTTP_registration_order _ _ h 1%nat "/" Fixture.world0).
  discriminate.
Defined.

Lemma single_failing_unit_default_OnError_witness :
  let g := Fixture.app_of [Fixture.unit_boom] in
  let h := {| app := g; h_middleware := middleware g |} in
  middleware g = [Fixture.unit_boom]
  /\ OnError g = OnError New
  /\ snd (Fixture.unit_boom (bound_Context 1%nat "/")) = Some (errors_New "boom")
  /\ toServeHandler g = Returned h
  /\ Body (Res (fst (fst (upto_finish h 1%nat "/" Fixture.world0))))
       = ("500 " ++ error_Error (errors_New "boom"))%string
  /\ Status (Res (fst (fst (upto_finish h 1%nat "/" Fixture.world0)))) = 500
  /\ bodies_written (events h 1%nat "/" Fixture.world0)
       = [("500 " ++ error_Error (errors_New "boom"))%string]
  /\ statuses_set (events h 1%nat "/" Fixture.world0) = [500]
  /\ hooks_run (events h 1%nat "/" Fixture.world0) = [].
Proof.
  intros g h.
  split; [reflexivity|]. split; [reflexivity|]. split; [reflexivity|].
  apply (@single_failing_unit_default_OnError _ _ g Fixture.unit_boom
           (errors_New "boom") 1%nat "/" Fixture.world0);
    reflexivity.
Defined.

Lemma OnError_record_normalization_witness :
  let ce := {| Code := 404; Msg := "missing" |} in
  let h := Fixture.handler_of
             (Fixture.app_on (Fixture.OnError_const ce) [Fixture.unit_boom]) in
  let text := (fmt_03d (Code ce) ++ " " ++ Msg ce)%string in
  snd (fst (run_chain h 1%nat "/" Fixture.world0)) = Some (errors_New "boom")
  /\ snd (OnError (app h) (fst (fst (run_chain h 1%nat "/" Fixture.world0)))
            (errors_New "boom")) = Some ce
  /\ statuses_set (events h 1%nat "/" Fixture.world0) = [Code ce]
  /\ Status (Res (fst (fst (upto_normalize h 1%nat "/" Fixture.world0))))
       = Code ce
  /\ snd (fst (upto_normalize h 1%nat "/" Fixture.world0))
       = Some (errors_New text)
  /\ bodies_written (events h 1%nat "/" Fixture.world0) = [text]
  /\ Body (Res (fst (fst (upto_finish h 1%nat "/" Fixture.world0)))) = text.
Proof.
  intros ce h text.
  split; [reflexivity|]. split; [reflexivity|].
  apply (@OnError_record_normalization _ _ h 1%nat "/" Fixture.world0
           (errors_New "boom") ce);
    reflexivity.
Defined.

Lemma error_path_after_normalization_witness :
  let h := Fixture.handler_of
             (Fixture.app_on Fixture.OnError_nil [Fixture.unit_404]) in
  let ctxc := fst (fst (run_chain h 1%nat "/" Fixture.world0)) in
  let ctxn := fst (fst (upto_normalize h 1%nat "/" Fixture.world0)) in
  let ctxf := fst (fst (upto_finish h 1%nat "/" Fixture.world0)) in
  snd (fst (run_chain h 1%nat "/" Fixture.world0))
    = Some (errors_New "missing")
  /\ exists e : error,
       snd (fst (upto_normalize h 1%nat "/" Fixture.world0)) = Some e
       /\ (snd (OnError (app h) ctxc (errors_New "missing")) = None ->
           e = errors_New "missing")
       /\ Status (Res ctxf)
            = (if Status (Res ctxn) <? 400 then 500 else Status (Res ctxn))
       /\ Body (Res ctxf) = error_Error e
       /\ bodies_written (events h 1%nat "/" Fixture.world0) = [error_Error e]
       /\ hooks_run (events h 1%nat "/" Fixture.world0) = []
       /\ afterHooks ctxf = [].
Proof.
  intros h ctxc ctxn ctxf. split; [reflexivity|].
  apply (@error_path_after_normalization _ _ h 1%nat "/" Fixture.world0
           (errors_New "missing")).
  reflexivity.
Defined.

Lemma empty_chain_panics_witness :
  (middleware (Fixture.app_of []) = []
   /\ Listen (Fixture.app_of []) new_Server ":3000"
        = Panicked (NewAppError "no middleware")
   /\ ListenTLS (Fixture.app_of []) new_Server ":3000" "cert.pem" "key.pem"
        = Panicked (NewAppError "no middleware")
   /\ Start (Fixture.app_of []) new_Server []
        = Panicked (NewAppError "no middleware"))
  /\ (middleware (Fixture.app_of [Fixture.unit_pass]) <> []
      /\ (exists out,
            Listen (Fixture.app_of [Fixture.unit_pass]) new_Server ":3000"
              = Returned out)
      /\ (exists out,
            ListenTLS (Fixture.app_of [Fixture.unit_pass]) new_Server ":3000"
              "cert.pem" "key.pem" = Returned out)
      /\ (forall e,
            Start (Fixture.app_of [Fixture.unit_pass]) new_Server ["bad:addr"]
              = Panicked e ->
            e <> NewAppError "no middleware"
            /\ exists err,
                 net_Listen "tcp" (Start_laddr ["bad:addr"]) = inr err)).
Proof.
  split.
  - split; [reflexivity|].
    apply (proj1 (@empty_chain_panics _ _ (Fixture.app_of []) new_Server
                    ":3000" "cert.pem" "key.pem" [])).
    reflexivity.
  - split; [discriminate|].
    apply (proj2 (@empty_chain_panics _ _ (Fixture.app_of [Fixture.unit_pass])
                    new_Server ":3000" "cert.pem" "key.pem" ["bad:addr"])).
    discriminate.
Defined.

Lemma Start_binds_or_panics_witness :
  let g := Fixture.app_of [Fixture.unit_pass] in
  let h := Fixture.handler_of g in
  toServeHandler g = Returned h
  /\ Start g new_Server []
       = Returned
           (set_Handler h new_Server,
            {| l := "127.0.0.1:0" : @Listener Fixture.transport;
               c := Some (errors_New "closed") |})
  /\ Start g new_Server ["bad:addr"]
       = Panicked (errors_New
           "[Gear] failed to listen on bad:addr: address unavailable").
Proof.
  intros g h. split; [reflexivity|].
  pose proof (@Start_binds_or_panics _ _ g new_Server [] h eq_refl)
    as (_ & _ & _ & _ & Hok).
  pose proof (@Start_binds_or_panics _ _ g new_Server ["bad:addr"] h eq_refl)
    as (_ & _ & _ & _ & Hbad).
  split.
  - destruct Hok as (srv' & s & Hstart & _). rewrite Hstart.
    vm_compute in Hstart. injection Hstart as <- <-. reflexivity.
  - exact Hbad.
Defined.

Lemma wrapped_handlers_return_nil_witness :
  let h := Fixture.handler_of
             (Fixture.app_of
                [WrapHandlerFunc Fixture.hello; WrapHandlerFunc Fixture.hello]) in
  Forall wrapped (h_middleware h)
  /\ snd (fst (run_chain h 1%nat "/" Fixture.world0)) = None
  /\ errors_normalized (events h 1%nat "/" Fixture.world0) = []
  /\ bodies_written (events h 1%nat "/" Fixture.world0) = []
  /\ hooks_run (events h 1%nat "/" Fixture.world0)
       = afterHooks (fst (fst (run_chain h 1%nat "/" Fixture.world0)))
  /\ ((List.length (handled (events h 1%nat "/" Fixture.world0))
         < List.length (h_middleware h))%nat ->
      finished (Res (fst (fst (run_chain h 1%nat "/" Fixture.world0)))) = true).
Proof.
  intros h.
  assert (Hw : Forall wrapped (h_middleware h)).
  { constructor; [right; exists Fixture.hello; reflexivity|].
    constructor; [right; exists Fixture.hello; reflexivity|].
    constructor. }
  split; [exact Hw|].
  exact (proj2 (proj2 wrapped_handlers_return_nil) h 1%nat "/"
           Fixture.world0 Hw).
Defined.

(** The chain of two wrapped handlers stops after the first, which
    finishes the response. *)
Example wrapped_chain_stops_on_finished :
  handled
    (events
       (Fixture.handler_of
          (Fixture.app_of
             [WrapHandlerFunc Fixture.hello; WrapHandlerFunc Fixture.hello]))
       1%nat "/" Fixture.world0)
  = [0%nat].
Proof. reflexivity. Qed.

(** * The greeter client and the benchmark *)

Section ClientProperties.
Context {G : GreeterClient.Grpc}.






End ClientProperties.

(** X14: the figure [total / (sec / 1000)] that [bench] prints panics
    with a division by zero when the run took less than one second,
    and otherwise is the whole number of operations per whole second,
    so that it times the seconds does not exceed the total. *)
Theorem bench_ops_needs_a_second (total elapsed : Z) :
  (0 <= elapsed < 1000000000 ->
     GreeterClient.bench_ops total elapsed
       = Panicked (errors_New "runtime error: integer divide by zero"))
  /\ (1000000000 <= elapsed -> 0 <= total ->
        exists ops,
          GreeterClient.bench_ops total elapsed = Returned ops
          /\ 0 <= ops
          /\ ops * (elapsed / 1000000000) <= total
          /\ total < (ops + 1) * (elapsed / 1000000000)).
Proof.
  assert (Hq : 0 <= elapsed ->
    Z.quot (Z.quot elapsed 1000000) 1000 = elapsed / 1000000000).
  { intros He.
    rewrite (Z.quot_div_nonneg elapsed 1000000) by lia.
    rewrite Z.quot_div_nonneg by (try apply Z.div_pos; lia).
    rewrite Z.div_div by lia. reflexivity. }
  unfold GreeterClient.bench_ops. split.
  - intros He. rewrite Hq by lia. rewrite Z.div_small by lia. reflexivity.
  - intros He Ht. rewrite Hq by lia.
    assert (Hs : 1 <= elapsed / 1000000000).
    { apply Z.div_le_lower_bound; lia. }
    destruct (elapsed / 1000000000 =? 0) eqn:Hz; [lia|].
    rewrite Z.quot_div_nonneg by lia.
    exists (total / (elapsed / 1000000000)).
    split; [reflexivity|].
    split; [apply Z.div_pos; lia|].
    pose proof (Z.mul_div_le total (elapsed / 1000000000)).
    pose proof (Z.mul_succ_div_gt total (elapsed / 1000000000)).
    nia.
Qed.

(** The ten names. *)
Example client_names :
  map GreeterClient.Itoa (seq 0 10)
  = ["0"; "1"; "2"; "3"; "4"; "5"; "6"; "7"; "8"; "9"]%string.
Proof. reflexivity. Qed.

(** The greeter refuses the fourth call: four names are sent, three
    greetings are logged, the process exits and nothing is closed. *)
Example client_fourth_call_fails :
  @GreeterClient.main (GreeterClient.counting 3) 0%nat
  = ([GreeterClient.Said "0"; GreeterClient.Logged "Greeting: Hello 0";
      GreeterClient.Said "1"; GreeterClient.Logged "Greeting: Hello 1";
      GreeterClient.Said "2"; GreeterClient.Logged "Greeting: Hello 2";
      GreeterClient.Said "3";
      GreeterClient.Logged "could not greet: unavailable"],
     GreeterClient.OsExit 1).
Proof. reflexivity. Qed.

(** * Witnesses, once more *)

Lemma final_status_of_OnError_code_witness :
  let ce := {| Code := 200; Msg := "fine" |} in
  let h := Fixture.handler_of
             (Fixture.app_on (Fixture.OnError_const ce) [Fixture.unit_boom]) in
  snd (fst (run_chain h 1%nat "/" Fixture.world0)) = Some (errors_New "boom")
  /\ snd (OnError (app h) (fst (fst (run_chain h 1%nat "/" Fixture.world0)))
            (errors_New "boom")) = Some ce
  /\ Status (Res (fst (fst (upto_finish h 1%nat "/" Fixture.world0))))
       = (if Code ce <? 400 then 500 else Code ce).
Proof.
  intros ce h. split; [reflexivity|]. split; [reflexivity|].
  apply (@final_status_of_OnError_code _ _ h 1%nat "/" Fixture.world0
           (errors_New "boom") ce);
    reflexivity.
Defined.

Lemma success_path_keeps_response_witness :
  let h := Fixture.handler_of
             (Fixture.app_of [Fixture.unit_after; Fixture.unit_end]) in
  let ctxc := fst (fst (run_chain h 1%nat "/" Fixture.world0)) in
  snd (fst (run_chain h 1%nat "/" Fixture.world0)) = None
  /\ snd (fst (upto_finish h 1%nat "/" Fixture.world0)) = None
  /\ fst (fst (upto_finish h 1%nat "/" Fixture.world0))
       = fold_left (fun cx hk => hook_body hk cx) (afterHooks ctxc) ctxc
  /\ ended ctxc = true
  /\ errors_normalized (events h 1%nat "/" Fixture.world0) = []
  /\ statuses_set (events h 1%nat "/" Fixture.world0) = []
  /\ bodies_written (events h 1%nat "/" Fixture.world0) = [].
Proof.
  intros h ctxc. split; [reflexivity|].
  apply (@success_path_keeps_response _ _ h 1%nat "/" Fixture.world0).
  reflexivity.
Defined.

Lemma Start_uses_first_address_witness :
  let g := Fixture.app_of [Fixture.unit_pass] in
  Start g new_Server [":3000"; ":4000"] = Start g new_Server [":3000"]
  /\ (exists srv' s,
        Start g new_Server [":3000"; ":4000"] = Returned (srv', s)
        /\ Addr srv' = Addr new_Server
        /\ Server_ErrorLog srv' = None).
Proof.
  intros g.
  pose proof (@Start_uses_first_address _ _ g new_Server ":3000" [":4000"])
    as (Hsame & Hsrv).
  split; [exact Hsame|].
  eexists; eexists. split; [reflexivity|].
  exact (Hsrv _ _ eq_refl).
Defined.

Lemma Listen_serves_configured_server_witness :
  let g := Fixture.app_of [Fixture.unit_pass] in
  let srv' :=
    {| Addr := ":3000";
       Server_Handler := Some {| app := g; h_middleware := middleware g |};
       Server_ErrorLog := match ErrorLog g with
                          | Some lg => Some lg
                          | None => Server_ErrorLog new_Server
                          end |} in
  middleware g <> []
  /\ Listen g new_Server ":3000" = Returned (srv', ListenAndServe srv')
  /\ ListenTLS g new_Server ":3000" "cert.pem" "key.pem"
       = Returned (srv', ListenAndServeTLS srv' "cert.pem" "key.pem").
Proof.
  intros g srv'. split; [discriminate|].
  apply (@Listen_serves_configured_server _ _ g new_Server ":3000"
           "cert.pem" "key.pem").
  discriminate.
Defined.

Lemma wrapped_chain_queues_no_hook_witness :
  let h := Fixture.handler_of
             (Fixture.app_of
                [WrapHandlerFunc Fixture.hello; WrapHandlerFunc Fixture.hello]) in
  Forall wrapped (h_middleware h)
  /\ hooks_run (events h 1%nat "/" Fixture.world0) = []
  /\ afterHooks (fst (fst (run_chain h 1%nat "/" Fixture.world0))) = []
  /\ Req (fst (fst (run_chain h 1%nat "/" Fixture.world0))) = Some "/"%string.
Proof.
  intros h.
  assert (Hw : Forall wrapped (h_middleware h)).
  { constructor; [right; exists Fixture.hello; reflexivity|].
    constructor; [right; exists Fixture.hello; reflexivity|].
    constructor. }
  split; [exact Hw|].
  exact (@wrapped_chain_queues_no_hook _ _ h 1%nat "/" Fixture.world0 Hw).
Defined.


Lemma bench_ops_needs_a_second_witness :
  (0 <= 999999999 < 1000000000
   /\ GreeterClient.bench_ops 1000000 999999999
        = Panicked (errors_New "runtime error: integer divide by zero"))
  /\ (1000000000 <= 2500000000 /\ 0 <= 1000000
      /\ exists ops,
           GreeterClient.bench_ops 1000000 2500000000 = Returned ops
           /\ 0 <= ops
           /\ ops * (2500000000 / 1000000000) <= 1000000
           /\ 1000000 < (ops + 1) * (2500000000 / 1000000000)).
Proof.
  split.
  - split; [lia|].
    apply (proj1 (bench_ops_needs_a_second 1000000 999999999)). lia.
  - split; [lia|]. split; [lia|].
    apply (proj2 (bench_ops_needs_a_second 1000000 2500000000)); lia.
Defined.

Lemma chain_threads_context_witness :
  let h := Fixture.handler_of
             (Fixture.app_of
                [Fixture.unit_after; Fixture.unit_end; Fixture.unit_boom]) in
  exists k : nat,
    (k <= List.length (h_middleware h))%nat
    /\ handled (events h 1%nat "/" Fixture.world0) = seq 0 k
    /\ fst (fst (run_chain h 1%nat "/" Fixture.world0))
         = set_ended true
             (ctx_at (h_middleware h) (bound_Context 1%nat "/") k)
    /\ (k = 0%nat -> snd (fst (run_chain h 1%nat "/" Fixture.world0)) = None)
    /\ (forall handle, (1 <= k)%nat ->
          nth_error (h_middleware h) (k - 1) = Some handle ->
          snd (fst (run_chain h 1%nat "/" Fixture.world0))
            = snd (handle
                     (ctx_at (h_middleware h) (bound_Context 1%nat "/")
                        (k - 1)))).
Proof.
  intros h.
  exact (@chain_threads_context _ _ h 1%nat "/" Fixture.world0).
Defined.
